(** * playwright_is_located: layout and viewport predicates over bounding boxes

    A shallow embedding of [src/types.ts], [src/geometry.ts] and
    [src/main.ts], followed by the properties established about them.

    Numbers.  The code is embedded twice.  In the first embedding a
    JavaScript [number] is an exact rational [Q] and numeric equality is
    [Qeq] ([==]); NaN, the infinities and rounding are outside it, and every
    division in the source is guarded by a test that its divisor is positive
    (or is a division by the literal 2).  It carries the properties that do
    not depend on how a sum or a difference is rounded.  In the second
    embedding, [Binary64], a [number] is an IEEE 754 binary64 value, as in
    the running code; it carries the properties that rounding decides.

    Effects.  Every public operation of [main.ts] is an [async] function
    that awaits the measurement collaborator and may throw one of the two
    usage errors of [types.ts].  [Run A] records, in order, which requests
    were sent to the collaborator and how the call ended. *)

From Stdlib Require Import QArith Qminmax Qabs Lqa List String Bool Lia.
From Stdlib Require Floats.
Set Warnings "-inexact-float".
Import ListNotations.
Open Scope Q_scope.

(** ** JavaScript comparisons on numbers *)

Definition num_le (a b : Q) : bool := Qle_bool a b.
Definition num_ge (a b : Q) : bool := Qle_bool b a.
Definition num_lt (a b : Q) : bool := negb (Qle_bool b a).
Definition num_eq (a b : Q) : bool := Qeq_bool a b.

(** [v ?? d] and destructuring defaults: an absent option field takes [d]. *)
Definition orDefault {A : Type} (v : option A) (d : A) : A :=
  match v with
  | Some a => a
  | None => d
  end.

(** ** Awaited calls, collaborator requests and thrown errors *)

Module Effects.

(** The two [Error]s of [types.ts], kept as the label and the value
    that the message is built from. *)
Inductive UsageError : Type :=
| NotRatio01 (label : string) (v : Q)
| Negative (label : string) (v : Q).

(** One request to the measurement collaborator. *)
Inductive Probe : Type :=
| ScrollRequested
| BoxRequested
| ViewportRequested.

Inductive Outcome (A : Type) : Type :=
| Returned (a : A)
| Thrown (e : UsageError).
Arguments Returned {A} a.
Arguments Thrown {A} e.

Record Run (A : Type) : Type := mkRun {
  probes : list Probe;
  outcome : Outcome A
}.
Arguments mkRun {A} probes outcome.
Arguments probes {A} r.
Arguments outcome {A} r.

Definition ret {A : Type} (a : A) : Run A := mkRun [] (Returned a).

Definition throw {A : Type} (e : UsageError) : Run A := mkRun [] (Thrown e).

Definition request {A : Type} (p : Probe) (answer : A) : Run A :=
  mkRun [p] (Returned answer).

Definition bind {A B : Type} (m : Run A) (k : A -> Run B) : Run B :=
  match outcome m with
  | Returned a => mkRun (probes m ++ probes (k a)) (outcome (k a))
  | Thrown e => mkRun (probes m) (Thrown e)
  end.

(** [Promise.all([p, q])]: both requests are issued, first [p] then [q],
    and the pair of answers is awaited. *)
Definition all2 {A B : Type} (p : Run A) (q : Run B) : Run (A * B) :=
  bind p (fun a => bind q (fun b => ret (a, b))).

(** [Promise.all(xs.map(f))]. *)
Fixpoint allOf {A B : Type} (f : A -> Run B) (xs : list A) : Run (list B) :=
  match xs with
  | [] => ret []
  | a :: rest => bind (f a) (fun b => bind (allOf f rest) (fun bs => ret (b :: bs)))
  end.

End Effects.
Import Effects.

Declare Scope run_scope.
Delimit Scope run_scope with run.
Notation "v <- m ;; k" := (bind m (fun v => k))
  (at level 61, m at next level, right associativity) : run_scope.
Notation "m ;;; k" := (bind m (fun _ => k))
  (at level 61, right associativity) : run_scope.

(** ** types.ts *)

Module Types.

(** [ViewportSize]; its fields are [width] and [height] in the source,
    renamed here because [BoundingBox] has fields of the same names. *)
Record ViewportSize : Type := mkViewportSize {
  viewportWidth : Q;
  viewportHeight : Q
}.

Record BoundingBox : Type := mkBox {
  x : Q;
  y : Q;
  width : Q;
  height : Q
}.

(** [viewportSize()] answers a size or [null]. *)
Record PageLike : Type := mkPage {
  viewportSize : option ViewportSize
}.

(** A locator as the library sees it: the answer of [boundingBox()]
    ([None] is [null]); [page?.()] ([None] when the method is missing or
    answers [undefined]); and the optional [scrollIntoViewIfNeeded]
    ([None] when the method is missing, otherwise whether the returned
    promise resolves ([true]) or rejects ([false])). *)
Record LocatorLike : Type := mkLocator {
  boundingBox : option BoundingBox;
  page : option PageLike;
  scrollIntoViewIfNeeded : option bool
}.

Inductive Direction : Type := Left | Right | Above | Below.

Inductive Order : Type := LeftToRight | RightToLeft | TopToBottom | BottomToTop.

Definition Ratio01 : Type := Q.
Definition Pixels : Type := Q.

Definition assertRatio01 (v : Q) (label : string) : Run unit :=
  if negb (num_ge v 0 && num_le v 1) then throw (NotRatio01 label v) else ret tt.

Definition assertNonNegative (v : Q) (label : string) : Run unit :=
  if num_lt v 0 then throw (Negative label v) else ret tt.

End Types.
Import Types.

(** ** geometry.ts *)

Module Geometry.

Definition area (b : BoundingBox) : Q :=
  Qmax 0 (width b) * Qmax 0 (height b).

Definition right (b : BoundingBox) : Q := x b + width b.

Definition bottom (b : BoundingBox) : Q := y b + height b.

Definition clampVisible (viewW viewH : Q) (b : BoundingBox) : BoundingBox :=
  let x1 := Qmax 0 (x b) in
  let y1 := Qmax 0 (y b) in
  let x2 := Qmin (right b) (Qmax 0 viewW) in
  let y2 := Qmin (bottom b) (Qmax 0 viewH) in
  mkBox x1 y1 (Qmax 0 (x2 - x1)) (Qmax 0 (y2 - y1)).

Definition overlapLen (a1 a2 b1 b2 : Q) : Q :=
  Qmax 0 (Qmin a2 b2 - Qmax a1 b1).

Definition overlapRatio1D (a1 a2 b1 b2 : Q) : Q :=
  let ov := overlapLen a1 a2 b1 b2 in
  let len := Qmin (a2 - a1) (b2 - b1) in
  if num_lt 0 len then ov / len else 0.

Definition intersect (a b : BoundingBox) : BoundingBox :=
  let x1 := Qmax (x a) (x b) in
  let y1 := Qmax (y a) (y b) in
  let x2 := Qmin (right a) (right b) in
  let y2 := Qmin (bottom a) (bottom b) in
  mkBox x1 y1 (Qmax 0 (x2 - x1)) (Qmax 0 (y2 - y1)).

End Geometry.
Import Geometry.

(** ** main.ts *)

Module Main.

Local Open Scope run_scope.

(** The optional third argument [tol = 0] is passed by every caller. *)
Definition ge (a b tol : Q) : bool := num_ge (a + tol) b.
Definition le (a b tol : Q) : bool := num_le a (b + tol).
Definition within (v t tol : Q) : bool := num_le (Qabs (v - t)) tol.

Record IsInViewportOptions : Type := mkIsInViewportOptions {
  fullyVisible : option bool;
  threshold : option Ratio01;
  padding : option Pixels;
  scrollIntoView : option bool
}.

Inductive Logical : Type := LogicalStart | LogicalEnd.
Inductive WritingDirection : Type := Ltr | Rtl.

Record RelativeOptions : Type := mkRelativeOptions {
  overlapRatio : option Ratio01;
  gap : option Pixels;
  tolerance : option Pixels;
  logical : option Logical;
  writingDirection : option WritingDirection
}.

Inductive Axis : Type := AxisX | AxisY.
Inductive Mode : Type := Edges | Centers.

(** [AlignOptions]; its [tolerance] field is renamed because
    [RelativeOptions] has one of the same name. *)
Record AlignOptions : Type := mkAlignOptions {
  axis : Axis;
  mode : Mode;
  alignTolerance : option Pixels
}.

Definition noRelativeOptions : RelativeOptions :=
  mkRelativeOptions None None None None None.

Definition mapLogical (direction : Direction) (opts : RelativeOptions) : Direction :=
  match logical opts with
  | None => direction
  | Some lg =>
      let writing := orDefault (writingDirection opts) Ltr in
      match direction with
      | Left | Right =>
          match lg with
          | LogicalStart =>
              match writing with Rtl => Right | Ltr => Left end
          | LogicalEnd =>
              match writing with Rtl => Left | Ltr => Right end
          end
      | Above | Below => direction
      end
  end.

(** The awaited collaborator calls. *)
Definition awaitBoundingBox (l : LocatorLike) : Run (option BoundingBox) :=
  request BoxRequested (boundingBox l).

Definition awaitViewportSize (l : LocatorLike) : Run (option ViewportSize) :=
  match page l with
  | Some p => request ViewportRequested (viewportSize p)
  | None => ret None
  end.

(** The guarded scroll at the head of [isInViewport]: [true] when the
    function carries on, [false] when the [catch] returns [false]. *)
Definition tryScroll (wanted : bool) (l : LocatorLike) : Run bool :=
  if wanted then
    match scrollIntoViewIfNeeded l with
    | Some resolves => request ScrollRequested resolves
    | None => ret true
    end
  else ret true.

Definition isInViewport (locator : LocatorLike) (options : IsInViewportOptions)
  : Run bool :=
  let fullyVisible := orDefault (fullyVisible options) false in
  let threshold := orDefault (threshold options) 0 in
  let padding := orDefault (padding options) 0 in
  let scrollIntoView := orDefault (scrollIntoView options) false in
  scrolled <- tryScroll scrollIntoView locator ;;
  if negb scrolled then ret false else
  box <- awaitBoundingBox locator ;;
  match box with
  | None => ret false
  | Some box =>
      if num_le (area box) 0 then ret false else
      viewport <- awaitViewportSize locator ;;
      match viewport with
      | None => ret false
      | Some viewport =>
          assertNonNegative padding "padding" ;;;
          (if negb fullyVisible then assertRatio01 threshold "threshold"
           else ret tt) ;;;
          let vpW := viewportWidth viewport - padding * 2 in
          let vpH := viewportHeight viewport - padding * 2 in
          if num_le vpW 0 || num_le vpH 0 then ret false else
          let shifted := mkBox (x box - padding) (y box - padding)
                               (width box) (height box) in
          let visible := clampVisible vpW vpH shifted in
          if fullyVisible then
            ret (num_ge (x box) padding &&
                 num_ge (y box) padding &&
                 num_le (right box) (viewportWidth viewport - padding) &&
                 num_le (bottom box) (viewportHeight viewport - padding))
          else
            let ratio := area visible / area box in
            ret (num_ge ratio threshold)
      end
  end.

Definition visibleAreaRatio (locator : LocatorLike) : Run Ratio01 :=
  box <- awaitBoundingBox locator ;;
  viewport <- awaitViewportSize locator ;;
  match box, viewport with
  | Some box, Some viewport =>
      if num_eq (area box) 0 then ret 0 else
      let vis := clampVisible (viewportWidth viewport) (viewportHeight viewport) box in
      ret (Qmin 1 (Qmax 0 (area vis / area box)))
  | _, _ => ret 0
  end.

Definition relativePosition (firstElement secondElement : LocatorLike)
    (direction : Direction) (options : RelativeOptions) : Run bool :=
  let tol := orDefault (tolerance options) 0 in
  match gap options with
  | Some g => assertNonNegative g "gap"
  | None => ret tt
  end ;;;
  match overlapRatio options with
  | Some r => assertRatio01 r "overlapRatio"
  | None => ret tt
  end ;;;
  boxes <- all2 (awaitBoundingBox firstElement) (awaitBoundingBox secondElement) ;;
  match boxes with
  | (Some A, Some B) =>
      let gap := orDefault (gap options) 0 in
      let needOv := orDefault (overlapRatio options) 0 in
      let dir := mapLogical direction options in
      match dir with
      | Left =>
          let ordering := le (right A) (x B - gap) tol in
          let vOv := overlapRatio1D (y A) (bottom A) (y B) (bottom B) in
          ret (ordering && num_ge (vOv + tol) needOv)
      | Right =>
          let ordering := ge (x A) (right B + gap) (- tol) in
          let vOv := overlapRatio1D (y A) (bottom A) (y B) (bottom B) in
          ret (ordering && num_ge (vOv + tol) needOv)
      | Above =>
          let ordering := le (bottom A) (y B - gap) tol in
          let hOv := overlapRatio1D (x A) (right A) (x B) (right B) in
          ret (ordering && num_ge (hOv + tol) needOv)
      | Below =>
          let ordering := ge (y A) (bottom B + gap) (- tol) in
          let hOv := overlapRatio1D (x A) (right A) (x B) (right B) in
          ret (ordering && num_ge (hOv + tol) needOv)
      end
  | _ => ret false
  end.

Definition areAligned (firstElement secondElement : LocatorLike)
    (options : AlignOptions) : Run bool :=
  let tolerance := orDefault (alignTolerance options) 1 in
  boxes <- all2 (awaitBoundingBox firstElement) (awaitBoundingBox secondElement) ;;
  match boxes with
  | (Some A, Some B) =>
      match axis options with
      | AxisX =>
          match mode options with
          | Edges =>
              ret (within (y A) (y B) tolerance &&
                   within (bottom A) (bottom B) tolerance)
          | Centers =>
              ret (within (y A + height A / 2) (y B + height B / 2) tolerance)
          end
      | AxisY =>
          match mode options with
          | Edges =>
              ret (within (x A) (x B) tolerance &&
                   within (right A) (right B) tolerance)
          | Centers =>
              ret (within (x A + width A / 2) (x B + width B / 2) tolerance)
          end
      end
  | _ => ret false
  end.

(** [number | null] is [option Q]. *)
Definition edgeDistance (firstElement secondElement : LocatorLike)
    (direction : Direction) : Run (option Q) :=
  boxes <- all2 (awaitBoundingBox firstElement) (awaitBoundingBox secondElement) ;;
  match boxes with
  | (Some A, Some B) =>
      match direction with
      | Left => ret (Some (x B - right A))
      | Right => ret (Some (x A - right B))
      | Above => ret (Some (y B - bottom A))
      | Below => ret (Some (y A - bottom B))
      end
  | _ => ret None
  end.

(** [boxes.some(b => b === null)] followed by the cast to
    [BoundingBox[]]: the measured boxes, or [None] when one is [null]. *)
Fixpoint allMeasured (boxes : list (option BoundingBox)) : option (list BoundingBox) :=
  match boxes with
  | [] => Some []
  | None :: _ => None
  | Some b :: rest =>
      match allMeasured rest with
      | Some bs => Some (b :: bs)
      | None => None
      end
  end.

(** [for (let i = 1; i < b.length; i++) if (!rel(b[i-1], b[i])) return false;
    return true]. *)
Fixpoint eachAdjacent (rel : BoundingBox -> BoundingBox -> bool)
    (b : list BoundingBox) : bool :=
  match b with
  | prev :: (next :: _) as rest =>
      if negb (rel prev next) then false else eachAdjacent rel rest
  | _ => true
  end.

Definition inOrder (locators : list LocatorLike) (order : Order)
    (tolerance : Pixels) : Run bool :=
  boxes <- allOf awaitBoundingBox locators ;;
  match allMeasured boxes with
  | None => ret false
  | Some b =>
      match order with
      | LeftToRight =>
          ret (eachAdjacent (fun prev next => le (right prev) (x next) tolerance) b)
      | RightToLeft =>
          ret (eachAdjacent (fun prev next => ge (x prev) (right next) (- tolerance)) b)
      | TopToBottom =>
          ret (eachAdjacent (fun prev next => le (bottom prev) (y next) tolerance) b)
      | BottomToTop =>
          ret (eachAdjacent (fun prev next => ge (y prev) (bottom next) (- tolerance)) b)
      end
  end.

Definition intersectionAreaRatio (firstElement secondElement : LocatorLike)
  : Run Ratio01 :=
  boxes <- all2 (awaitBoundingBox firstElement) (awaitBoundingBox secondElement) ;;
  match boxes with
  | (Some A, Some B) =>
      if num_eq (area A) 0 then ret 0 else
      ret (Qmin 1 (Qmax 0 (area (intersect A B) / area A)))
  | _ => ret 0
  end.

End Main.
Import Main.

(** ** Vocabulary of the statements *)

(** Two boxes are the same rectangle when their four numbers are equal. *)
Definition box_eq (a b : BoundingBox) : Prop :=
  x a == x b /\ y a == y b /\ width a == width b /\ height a == height b.

(** The viewport size a locator's page answers, if any. *)
Definition viewportOf (l : LocatorLike) : option ViewportSize :=
  match page l with
  | Some p => viewportSize p
  | None => None
  end.

(** Options that pass the validation of [relativePosition] (and a tolerance
    that is a pixel count), read after defaulting. *)
Definition validRelative (o : RelativeOptions) : Prop :=
  0 <= orDefault (gap o) 0 /\
  0 <= orDefault (overlapRatio o) 0 <= 1 /\
  0 <= orDefault (tolerance o) 0.

(** Options that pass the validation of [isInViewport]. *)
Definition validViewport (o : IsInViewportOptions) : Prop :=
  0 <= orDefault (padding o) 0 /\
  (orDefault (fullyVisible o) false = false ->
   0 <= orDefault (threshold o) 0 <= 1).


(** A locator that measures to the given box on a page of the given size. *)
Definition measured (b : BoundingBox) (vp : ViewportSize) : LocatorLike :=
  mkLocator (Some b) (Some (mkPage (Some vp))) None.

(** A locator whose element is not rendered: [boundingBox()] answers [null]. *)
Definition unrendered (vp : ViewportSize) : LocatorLike :=
  mkLocator None (Some (mkPage (Some vp))) None.

(** A rendered element whose page reports no viewport. *)
Definition noViewport (b : BoundingBox) : LocatorLike :=
  mkLocator (Some b) (Some (mkPage None)) None.

Definition viewport800x600 : ViewportSize := mkViewportSize 800 600.

(** The options [{...o, tolerance: t}]. *)
Definition setTolerance (o : RelativeOptions) (t : Q) : RelativeOptions :=
  mkRelativeOptions (overlapRatio o) (gap o) (Some t) (logical o) (writingDirection o).

Definition withTolerance (t : Q) : RelativeOptions :=
  setTolerance noRelativeOptions t.

(** Two boxes of one row that touch: [rowRight] starts where [rowLeft] ends. *)
Definition rowLeft : BoundingBox := mkBox 0 0 100 10.
Definition rowRight : BoundingBox := mkBox 100 0 10 10.

(** Two boxes of one column that touch. *)
Definition columnTop : BoundingBox := mkBox 0 0 10 100.
Definition columnBottom : BoundingBox := mkBox 0 100 10 10.

(** Two boxes of one row that overlap by one pixel. *)
Definition overlapFirst : BoundingBox := mkBox 10 0 10 10.
Definition overlapSecond : BoundingBox := mkBox 0 0 11 10.

Definition rendered (b : BoundingBox) : LocatorLike := measured b viewport800x600.

Definition logicalStart (w : WritingDirection) : RelativeOptions :=
  mkRelativeOptions None None None (Some LogicalStart) (Some w).

Definition withPadding (p : Q) : IsInViewportOptions :=
  mkIsInViewportOptions None None (Some p) None.

(** The adjacent pairs of a sequence, by position. *)
Definition adjacentPair (bs : list BoundingBox) (prev next : BoundingBox) : Prop :=
  exists i : nat, nth_error bs i = Some prev /\ nth_error bs (S i) = Some next.

(** The scroll that [isInViewport] attempts first is asked for, supported
    by the locator, and rejects (fails or times out). *)
Definition scrollRejects (l : LocatorLike) (o : IsInViewportOptions) : Prop :=
  orDefault (scrollIntoView o) false = true /\
  scrollIntoViewIfNeeded l = Some false.

(** What [isInViewport] answers once the box and the viewport are measured
    and the options are accepted: the last lines of its body. *)
Definition viewportVerdict (o : IsInViewportOptions) (box : BoundingBox)
    (viewport : ViewportSize) : bool :=
  let fullyVisible := orDefault (fullyVisible o) false in
  let threshold := orDefault (threshold o) 0 in
  let padding := orDefault (padding o) 0 in
  let vpW := viewportWidth viewport - padding * 2 in
  let vpH := viewportHeight viewport - padding * 2 in
  if num_le vpW 0 || num_le vpH 0 then false else
  let shifted := mkBox (x box - padding) (y box - padding)
                       (width box) (height box) in
  let visible := clampVisible vpW vpH shifted in
  if fullyVisible then
    num_ge (x box) padding &&
    num_ge (y box) padding &&
    num_le (right box) (viewportWidth viewport - padding) &&
    num_le (bottom box) (viewportHeight viewport - padding)
  else
    num_ge (area visible / area box) threshold.

(** The two option checks of [isInViewport], in the order of the source. *)
Definition viewportChecks (o : IsInViewportOptions) : Run unit :=
  bind (assertNonNegative (orDefault (padding o) 0) "padding")
       (fun _ => if negb (orDefault (fullyVisible o) false)
                 then assertRatio01 (orDefault (threshold o) 0) "threshold"
                 else ret tt).

(** The options [{...o, scrollIntoView: undefined}]. *)
Definition withoutScroll (o : IsInViewportOptions) : IsInViewportOptions :=
  mkIsInViewportOptions (fullyVisible o) (threshold o) (padding o) None.

(** ** The same code over binary64 numbers

    The comparisons of the exact model above are insensitive to one unit in
    the last place only when both sides are the same expression.  Where a
    statement hinges on a rounded sum or difference, the code is modelled
    again with JavaScript's own numbers: IEEE 754 binary64 with
    round-to-nearest-even, NaN, infinities and signed zeros, as the kernel's
    primitive floats provide them. *)

Module Binary64.

Import FloatClass PrimFloat.
Local Open Scope float_scope.

(** *** JavaScript operators on numbers *)

(** [a <= b], [a >= b], [a < b] and [a === b]: false as soon as an operand
    is NaN; the two zeros are equal. *)
Definition num_le (a b : float) : bool := a <=? b.
Definition num_ge (a b : float) : bool := b <=? a.
Definition num_lt (a b : float) : bool := a <? b.
Definition num_eq (a b : float) : bool := a =? b.

Definition is_pos_zero (a : float) : bool :=
  match classify a with
  | PZero => true
  | _ => false
  end.

Definition is_neg_zero (a : float) : bool :=
  match classify a with
  | NZero => true
  | _ => false
  end.

(** [Math.max(a, b)] (ECMA-262, 21.3.2.24): NaN if an argument is NaN;
    starting from -Infinity the running highest becomes [a], then +0 if [b]
    is +0 and the highest is -0, then [b] if [b] is greater. *)
Definition Math_max (a b : float) : float :=
  if is_nan a || is_nan b then nan
  else if is_pos_zero b && is_neg_zero a then b
  else if a <? b then b
  else a.

(** [Math.min(a, b)] (ECMA-262, 21.3.2.25), the mirror image, with -0 below
    +0. *)
Definition Math_min (a b : float) : float :=
  if is_nan a || is_nan b then nan
  else if is_neg_zero b && is_pos_zero a then b
  else if b <? a then b
  else a.

(** *** Awaited calls and thrown errors *)

Inductive UsageError : Type :=
| NotRatio01 (label : string) (v : float)
| Negative (label : string) (v : float).

Inductive Outcome (A : Type) : Type :=
| Returned (a : A)
| Thrown (e : UsageError).
Arguments Returned {A} a.
Arguments Thrown {A} e.

Record Run (A : Type) : Type := mkRun {
  probes : list Probe;
  outcome : Outcome A
}.
Arguments mkRun {A} probes outcome.
Arguments probes {A} r.
Arguments outcome {A} r.

Definition ret {A : Type} (a : A) : Run A := mkRun [] (Returned a).

Definition throw {A : Type} (e : UsageError) : Run A := mkRun [] (Thrown e).

Definition request {A : Type} (p : Probe) (answer : A) : Run A :=
  mkRun [p] (Returned answer).

Definition bind {A B : Type} (m : Run A) (k : A -> Run B) : Run B :=
  match outcome m with
  | Returned a => mkRun (probes m ++ probes (k a)) (outcome (k a))
  | Thrown e => mkRun (probes m) (Thrown e)
  end.

Definition all2 {A B : Type} (p : Run A) (q : Run B) : Run (A * B) :=
  bind p (fun a => bind q (fun b => ret (a, b))).

Fixpoint allOf {A B : Type} (f : A -> Run B) (xs : list A) : Run (list B) :=
  match xs with
  | [] => ret []
  | a :: rest => bind (f a) (fun b => bind (allOf f rest) (fun bs => ret (b :: bs)))
  end.

Local Notation "v <- m ;; k" := (bind m (fun v => k))
  (at level 61, m at next level, right associativity).
Local Notation "m ;;; k" := (bind m (fun _ => k))
  (at level 61, right associativity).

(** *** types.ts *)

Record BoundingBox : Type := mkBox {
  x : float;
  y : float;
  width : float;
  height : float
}.

Record ViewportSize : Type := mkViewportSize {
  viewportWidth : float;
  viewportHeight : float
}.

Record PageLike : Type := mkPage {
  viewportSize : option ViewportSize
}.

Record LocatorLike : Type := mkLocator {
  boundingBox : option BoundingBox;
  page : option PageLike;
  scrollIntoViewIfNeeded : option bool
}.

Definition assertRatio01 (v : float) (label : string) : Run unit :=
  if negb (num_ge v 0 && num_le v 1) then throw (NotRatio01 label v) else ret tt.

Definition assertNonNegative (v : float) (label : string) : Run unit :=
  if num_lt v 0 then throw (Negative label v) else ret tt.

(** *** geometry.ts *)

Definition area (b : BoundingBox) : float :=
  Math_max 0 (width b) * Math_max 0 (height b).

Definition right (b : BoundingBox) : float := x b + width b.

Definition bottom (b : BoundingBox) : float := y b + height b.

Definition clampVisible (viewW viewH : float) (b : BoundingBox) : BoundingBox :=
  let x1 := Math_max 0 (x b) in
  let y1 := Math_max 0 (y b) in
  let x2 := Math_min (right b) (Math_max 0 viewW) in
  let y2 := Math_min (bottom b) (Math_max 0 viewH) in
  mkBox x1 y1 (Math_max 0 (x2 - x1)) (Math_max 0 (y2 - y1)).

Definition overlapLen (a1 a2 b1 b2 : float) : float :=
  Math_max 0 (Math_min a2 b2 - Math_max a1 b1).

Definition overlapRatio1D (a1 a2 b1 b2 : float) : float :=
  let ov := overlapLen a1 a2 b1 b2 in
  let len := Math_min (a2 - a1) (b2 - b1) in
  if num_lt 0 len then ov / len else 0.

Definition intersect (a b : BoundingBox) : BoundingBox :=
  let x1 := Math_max (x a) (x b) in
  let y1 := Math_max (y a) (y b) in
  let x2 := Math_min (right a) (right b) in
  let y2 := Math_min (bottom a) (bottom b) in
  mkBox x1 y1 (Math_max 0 (x2 - x1)) (Math_max 0 (y2 - y1)).

(** *** main.ts *)

Definition ge (a b tol : float) : bool := num_ge (a + tol) b.
Definition le (a b tol : float) : bool := num_le a (b + tol).
Definition within (v t tol : float) : bool := num_le (abs (v - t)) tol.

Record IsInViewportOptions : Type := mkIsInViewportOptions {
  fullyVisible : option bool;
  threshold : option float;
  padding : option float;
  scrollIntoView : option bool
}.

Record RelativeOptions : Type := mkRelativeOptions {
  overlapRatio : option float;
  gap : option float;
  tolerance : option float;
  logical : option Logical;
  writingDirection : option WritingDirection
}.

Record AlignOptions : Type := mkAlignOptions {
  axis : Axis;
  mode : Mode;
  alignTolerance : option float
}.

Definition mapLogical (direction : Direction) (opts : RelativeOptions) : Direction :=
  match logical opts with
  | None => direction
  | Some lg =>
      let writing := orDefault (writingDirection opts) Ltr in
      match direction with
      | Left | Right =>
          match lg with
          | LogicalStart =>
              match writing with Rtl => Right | Ltr => Left end
          | LogicalEnd =>
              match writing with Rtl => Left | Ltr => Right end
          end
      | Above | Below => direction
      end
  end.

Definition awaitBoundingBox (l : LocatorLike) : Run (option BoundingBox) :=
  request BoxRequested (boundingBox l).

Definition awaitViewportSize (l : LocatorLike) : Run (option ViewportSize) :=
  match page l with
  | Some p => request ViewportRequested (viewportSize p)
  | None => ret None
  end.

Definition tryScroll (wanted : bool) (l : LocatorLike) : Run bool :=
  if wanted then
    match scrollIntoViewIfNeeded l with
    | Some resolves => request ScrollRequested resolves
    | None => ret true
    end
  else ret true.

Definition isInViewport (locator : LocatorLike) (options : IsInViewportOptions)
  : Run bool :=
  let fullyVisible := orDefault (fullyVisible options) false in
  let threshold := orDefault (threshold options) 0 in
  let padding := orDefault (padding options) 0 in
  let scrollIntoView := orDefault (scrollIntoView options) false in
  scrolled <- tryScroll scrollIntoView locator ;;
  if negb scrolled then ret false else
  box <- awaitBoundingBox locator ;;
  match box with
  | None => ret false
  | Some box =>
      if num_le (area box) 0 then ret false else
      viewport <- awaitViewportSize locator ;;
      match viewport with
      | None => ret false
      | Some viewport =>
          assertNonNegative padding "padding" ;;;
          (if negb fullyVisible then assertRatio01 threshold "threshold"
           else ret tt) ;;;
          let vpW := viewportWidth viewport - padding * 2 in
          let vpH := viewportHeight viewport - padding * 2 in
          if num_le vpW 0 || num_le vpH 0 then ret false else
          let shifted := mkBox (x box - padding) (y box - padding)
                               (width box) (height box) in
          let visible := clampVisible vpW vpH shifted in
          if fullyVisible then
            ret (num_ge (x box) padding &&
                 num_ge (y box) padding &&
                 num_le (right box) (viewportWidth viewport - padding) &&
                 num_le (bottom box) (viewportHeight viewport - padding))
          else
            let ratio := area visible / area box in
            ret (num_ge ratio threshold)
      end
  end.

Definition visibleAreaRatio (locator : LocatorLike) : Run float :=
  box <- awaitBoundingBox locator ;;
  viewport <- awaitViewportSize locator ;;
  match box, viewport with
  | Some box, Some viewport =>
      if num_eq (area box) 0 then ret 0 else
      let vis := clampVisible (viewportWidth viewport) (viewportHeight viewport) box in
      ret (Math_min 1 (Math_max 0 (area vis / area box)))
  | _, _ => ret 0
  end.

Definition relativePosition (firstElement secondElement : LocatorLike)
    (direction : Direction) (options : RelativeOptions) : Run bool :=
  let tol := orDefault (tolerance options) 0 in
  match gap options with
  | Some g => assertNonNegative g "gap"
  | None => ret tt
  end ;;;
  match overlapRatio options with
  | Some r => assertRatio01 r "overlapRatio"
  | None => ret tt
  end ;;;
  boxes <- all2 (awaitBoundingBox firstElement) (awaitBoundingBox secondElement) ;;
  match boxes with
  | (Some A, Some B) =>
      let gap := orDefault (gap options) 0 in
      let needOv := orDefault (overlapRatio options) 0 in
      let dir := mapLogical direction options in
      match dir with
      | Left =>
          let ordering := le (right A) (x B - gap) tol in
          let vOv := overlapRatio1D (y A) (bottom A) (y B) (bottom B) in
          ret (ordering && num_ge (vOv + tol) needOv)
      | Right =>
          let ordering := ge (x A) (right B + gap) (- tol) in
          let vOv := overlapRatio1D (y A) (bottom A) (y B) (bottom B) in
          ret (ordering && num_ge (vOv + tol) needOv)
      | Above =>
          let ordering := le (bottom A) (y B - gap) tol in
          let hOv := overlapRatio1D (x A) (right A) (x B) (right B) in
          ret (ordering && num_ge (hOv + tol) needOv)
      | Below =>
          let ordering := ge (y A) (bottom B + gap) (- tol) in
          let hOv := overlapRatio1D (x A) (right A) (x B) (right B) in
          ret (ordering && num_ge (hOv + tol) needOv)
      end
  | _ => ret false
  end.

Definition areAligned (firstElement secondElement : LocatorLike)
    (options : AlignOptions) : Run bool :=
  let tolerance := orDefault (alignTolerance options) 1 in
  boxes <- all2 (awaitBoundingBox firstElement) (awaitBoundingBox secondElement) ;;
  match boxes with
  | (Some A, Some B) =>
      match axis options with
      | AxisX =>
          match mode options with
          | Edges =>
              ret (within (y A) (y B) tolerance &&
                   within (bottom A) (bottom B) tolerance)
          | Centers =>
              ret (within (y A + height A / 2) (y B + height B / 2) tolerance)
          end
      | AxisY =>
          match mode options with
          | Edges =>
              ret (within (x A) (x B) tolerance &&
                   within (right A) (right B) tolerance)
          | Centers =>
              ret (within (x A + width A / 2) (x B + width B / 2) tolerance)
          end
      end
  | _ => ret false
  end.

Definition edgeDistance (firstElement secondElement : LocatorLike)
    (direction : Direction) : Run (option float) :=
  boxes <- all2 (awaitBoundingBox firstElement) (awaitBoundingBox secondElement) ;;
  match boxes with
  | (Some A, Some B) =>
      match direction with
      | Left => ret (Some (x B - right A))
      | Right => ret (Some (x A - right B))
      | Above => ret (Some (y B - bottom A))
      | Below => ret (Some (y A - bottom B))
      end
  | _ => ret None
  end.

Fixpoint allMeasured (boxes : list (option BoundingBox)) : option (list BoundingBox) :=
  match boxes with
  | [] => Some []
  | None :: _ => None
  | Some b :: rest =>
      match allMeasured rest with
      | Some bs => Some (b :: bs)
      | None => None
      end
  end.

Fixpoint eachAdjacent (rel : BoundingBox -> BoundingBox -> bool)
    (b : list BoundingBox) : bool :=
  match b with
  | prev :: (next :: _) as rest =>
      if negb (rel prev next) then false else eachAdjacent rel rest
  | _ => true
  end.

Definition inOrder (locators : list LocatorLike) (order : Order)
    (tolerance : float) : Run bool :=
  boxes <- allOf awaitBoundingBox locators ;;
  match allMeasured boxes with
  | None => ret false
  | Some b =>
      match order with
      | LeftToRight =>
          ret (eachAdjacent (fun prev next => le (right prev) (x next) tolerance) b)
      | RightToLeft =>
          ret (eachAdjacent (fun prev next => ge (x prev) (right next) (- tolerance)) b)
      | TopToBottom =>
          ret (eachAdjacent (fun prev next => le (bottom prev) (y next) tolerance) b)
      | BottomToTop =>
          ret (eachAdjacent (fun prev next => ge (y prev) (bottom next) (- tolerance)) b)
      end
  end.

Definition intersectionAreaRatio (firstElement secondElement : LocatorLike)
  : Run float :=
  boxes <- all2 (awaitBoundingBox firstElement) (awaitBoundingBox secondElement) ;;
  match boxes with
  | (Some A, Some B) =>
      if num_eq (area A) 0 then ret 0 else
      ret (Math_min 1 (Math_max 0 (area (intersect A B) / area A)))
  | _ => ret 0
  end.

(** *** Vocabulary of the statements *)

(** Options that [relativePosition] accepts, with a tolerance that is a
    pixel count, read after defaulting. *)
Definition validRelative (o : RelativeOptions) : Prop :=
  num_le 0 (orDefault (gap o) 0) = true /\
  (num_le 0 (orDefault (overlapRatio o) 0) = true /\
   num_le (orDefault (overlapRatio o) 0) 1 = true) /\
  num_le 0 (orDefault (tolerance o) 0) = true.

(** The viewport size a locator's page answers, if any. *)
Definition viewportOf (l : LocatorLike) : option ViewportSize :=
  match page l with
  | Some p => viewportSize p
  | None => None
  end.

Definition rendered (b : BoundingBox) : LocatorLike := mkLocator (Some b) None None.

Definition measured (b : BoundingBox) (vp : ViewportSize) : LocatorLike :=
  mkLocator (Some b) (Some (mkPage (Some vp))) None.

Definition adjacentPair (bs : list BoundingBox) (prev next : BoundingBox) : Prop :=
  exists i : nat, nth_error bs i = Some prev /\ nth_error bs (S i) = Some next.



End Binary64.

(** * Properties *)

(** ** Comparisons reflect the order of the rationals *)

Lemma num_le_true (a b : Q) : num_le a b = true <-> a <= b.
Proof. unfold num_le. apply Qle_bool_iff. Qed.

Lemma num_ge_true (a b : Q) : num_ge a b = true <-> b <= a.
Proof. unfold num_ge. apply Qle_bool_iff. Qed.

Lemma num_lt_true (a b : Q) : num_lt a b = true <-> a < b.
Proof.
  unfold num_lt. rewrite negb_true_iff. split.
  - intro H. apply Qnot_le_lt. intro Hle.
    apply Qle_bool_iff in Hle. congruence.
  - intro H. destruct (Qle_bool b a) eqn:E; [|reflexivity].
    apply Qle_bool_iff in E. exfalso. apply (Qlt_not_le _ _ H E).
Qed.

Lemma num_le_false (a b : Q) : num_le a b = false <-> b < a.
Proof.
  rewrite <- num_lt_true. unfold num_lt, num_le.
  destruct (Qle_bool a b); simpl; intuition congruence.
Qed.

Lemma num_ge_false (a b : Q) : num_ge a b = false <-> a < b.
Proof. unfold num_ge. apply (num_le_false b a). Qed.

Lemma num_lt_false (a b : Q) : num_lt a b = false <-> b <= a.
Proof.
  unfold num_lt. rewrite negb_false_iff. apply Qle_bool_iff.
Qed.

(** ** Max and min, as linear facts *)

Lemma Qmax_cases (a b : Q) :
  (a <= b /\ Qmax a b == b) \/ (b <= a /\ Qmax a b == a).
Proof.
  destruct (Q.max_spec a b) as [[H E]|[H E]]; [left|right]; split;
    try assumption; lra.
Qed.

Lemma Qmin_cases (a b : Q) :
  (a <= b /\ Qmin a b == a) \/ (b <= a /\ Qmin a b == b).
Proof.
  destruct (Q.min_spec a b) as [[H E]|[H E]]; [left|right]; split;
    try assumption; lra.
Qed.

(** Case-split on every [Qmax] and [Qmin] applied to the given arguments
    and leave the rest to linear arithmetic. *)
Ltac split_max a b := destruct (Qmax_cases a b) as [[? ?]|[? ?]].
Ltac split_min a b := destruct (Qmin_cases a b) as [[? ?]|[? ?]].

Ltac minmax_step :=
  match goal with
  | |- context [Qmax ?a ?b] =>
      lazymatch goal with
      | _ : Qmax a b == _ |- _ => fail
      | _ => split_max a b
      end
  | |- context [Qmin ?a ?b] =>
      lazymatch goal with
      | _ : Qmin a b == _ |- _ => fail
      | _ => split_min a b
      end
  | _ : context [Qmax ?a ?b] |- _ =>
      lazymatch goal with
      | _ : Qmax a b == _ |- _ => fail
      | _ => split_max a b
      end
  | _ : context [Qmin ?a ?b] |- _ =>
      lazymatch goal with
      | _ : Qmin a b == _ |- _ => fail
      | _ => split_min a b
      end
  end.

Ltac minmax := repeat minmax_step; try lra.

(** ** Clamping *)

(** C9. Clamping to a viewport is intersection with the rectangle at the
    origin whose sides are the viewport's dimensions floored at zero. *)
Theorem clampVisible_is_intersect (w h : Q) (r : BoundingBox) :
  box_eq (clampVisible w h r) (intersect r (mkBox 0 0 (Qmax 0 w) (Qmax 0 h))).
Proof.
  destruct r as [rx ry rw rh].
  unfold box_eq, clampVisible, intersect, right, bottom; cbn [x y width height].
  repeat split; minmax.
Qed.

(** ** The run monad *)

Lemma bind_ret_l {A B : Type} (a : A) (k : A -> Run B) : bind (ret a) k = k a.
Proof. unfold bind, ret; simpl. destruct (k a); reflexivity. Qed.

Lemma bind_request {A B : Type} (p : Probe) (a : A) (k : A -> Run B) :
  bind (request p a) k = mkRun (p :: probes (k a)) (outcome (k a)).
Proof. reflexivity. Qed.

(** ** Option validation *)

Lemma assertNonNegative_ok (v : Q) (label : string) :
  0 <= v -> assertNonNegative v label = ret tt.
Proof.
  intro H. unfold assertNonNegative.
  apply num_lt_false in H. rewrite H. reflexivity.
Qed.

Lemma assertNonNegative_throws (v : Q) (label : string) :
  v < 0 -> assertNonNegative v label = throw (Negative label v).
Proof.
  intro H. unfold assertNonNegative.
  apply num_lt_true in H. rewrite H. reflexivity.
Qed.

Lemma assertRatio01_ok (v : Q) (label : string) :
  0 <= v <= 1 -> assertRatio01 v label = ret tt.
Proof.
  intros [H0 H1]. unfold assertRatio01.
  apply num_ge_true in H0. apply num_le_true in H1.
  rewrite H0, H1. reflexivity.
Qed.

Lemma assertRatio01_throws (v : Q) (label : string) :
  v < 0 \/ 1 < v -> assertRatio01 v label = throw (NotRatio01 label v).
Proof.
  intro H. unfold assertRatio01.
  destruct H as [H|H].
  - apply num_ge_false in H. rewrite H. reflexivity.
  - apply num_le_false in H. rewrite H, andb_false_r. reflexivity.
Qed.

(** ** Interval overlap *)



(** ** relativePosition on measured boxes *)

Lemma gap_check_ok (o : RelativeOptions) :
  0 <= orDefault (gap o) 0 ->
  match gap o with
  | Some g => assertNonNegative g "gap"
  | None => ret tt
  end = ret tt.
Proof.
  destruct (gap o); simpl; intro H; [apply assertNonNegative_ok; exact H|reflexivity].
Qed.

Lemma overlap_check_ok (o : RelativeOptions) :
  0 <= orDefault (overlapRatio o) 0 <= 1 ->
  match overlapRatio o with
  | Some r => assertRatio01 r "overlapRatio"
  | None => ret tt
  end = ret tt.
Proof.
  destruct (overlapRatio o); simpl; intro H; [apply assertRatio01_ok; exact H|reflexivity].
Qed.

(** With accepted options the call measures both boxes and then decides by
    the physical direction alone. *)
Lemma relativePosition_measured (sub ref : LocatorLike) (d : Direction)
    (o : RelativeOptions) (A B : BoundingBox) :
  boundingBox sub = Some A -> boundingBox ref = Some B ->
  0 <= orDefault (gap o) 0 ->
  0 <= orDefault (overlapRatio o) 0 <= 1 ->
  relativePosition sub ref d o =
  mkRun [BoxRequested; BoxRequested]
    (Returned
       (let tol := orDefault (tolerance o) 0 in
        let gap := orDefault (gap o) 0 in
        let needOv := orDefault (overlapRatio o) 0 in
        match mapLogical d o with
        | Left =>
            le (right A) (x B - gap) tol &&
            num_ge (overlapRatio1D (y A) (bottom A) (y B) (bottom B) + tol) needOv
        | Right =>
            ge (x A) (right B + gap) (- tol) &&
            num_ge (overlapRatio1D (y A) (bottom A) (y B) (bottom B) + tol) needOv
        | Above =>
            le (bottom A) (y B - gap) tol &&
            num_ge (overlapRatio1D (x A) (right A) (x B) (right B) + tol) needOv
        | Below =>
            ge (y A) (bottom B + gap) (- tol) &&
            num_ge (overlapRatio1D (x A) (right A) (x B) (right B) + tol) needOv
        end)).
Proof.
  intros HA HB Hg Ho. unfold relativePosition.
  rewrite (gap_check_ok o Hg), (overlap_check_ok o Ho).
  rewrite !bind_ret_l.
  unfold all2, awaitBoundingBox. rewrite HA, HB.
  cbv beta iota delta [bind request ret outcome probes app].
  destruct (mapLogical d o); reflexivity.
Qed.

(** ** Logical directions *)

Lemma mapLogical_no_logical (d : Direction) (o : RelativeOptions) :
  logical o = None -> mapLogical d o = d.
Proof. intro H. unfold mapLogical. rewrite H. reflexivity. Qed.

Lemma mapLogical_horizontal (o : RelativeOptions) :
  logical o <> None -> mapLogical Left o = mapLogical Right o.
Proof.
  intro H. unfold mapLogical. destruct (logical o); [reflexivity|congruence].
Qed.

Lemma mapLogical_vertical (o : RelativeOptions) :
  mapLogical Above o = Above /\ mapLogical Below o = Below.
Proof. unfold mapLogical. destruct (logical o); split; reflexivity. Qed.



(** C10. When [logical] is set the horizontal direction argument is ignored:
    left and right give the same run, the physical direction of a horizontal
    request is fixed by [logical] and [writingDirection] alone, and above and
    below pass through. *)
Theorem logical_ignores_horizontal (sub ref : LocatorLike) (o : RelativeOptions) :
  logical o <> None ->
  relativePosition sub ref Left o = relativePosition sub ref Right o /\
  (forall o' : RelativeOptions,
      logical o' = logical o -> writingDirection o' = writingDirection o ->
      mapLogical Left o' = mapLogical Left o /\
      mapLogical Right o' = mapLogical Left o) /\
  mapLogical Above o = Above /\ mapLogical Below o = Below.
Proof.
  intro H. split; [|split].
  - unfold relativePosition. rewrite (mapLogical_horizontal o H). reflexivity.
  - intros o' Hl Hw. unfold mapLogical. rewrite Hl, Hw.
    destruct (logical o); [split; reflexivity|congruence].
  - apply mapLogical_vertical.
Qed.

Lemma logical_ignores_horizontal_witness :
  relativePosition (measured (mkBox 20 40 50 30) viewport800x600)
                   (measured (mkBox 120 40 50 30) viewport800x600)
                   Left (logicalStart Rtl)
  = relativePosition (measured (mkBox 20 40 50 30) viewport800x600)
                     (measured (mkBox 120 40 50 30) viewport800x600)
                     Right (logicalStart Rtl).
Proof.
  apply (logical_ignores_horizontal
           (measured (mkBox 20 40 50 30) viewport800x600)
           (measured (mkBox 120 40 50 30) viewport800x600)
           (logicalStart Rtl)).
  simpl. discriminate.
Defined.

(** ** Tolerance *)

Lemma relativePosition_right_iff (sub ref : LocatorLike) (o : RelativeOptions)
    (A B : BoundingBox) :
  boundingBox sub = Some A -> boundingBox ref = Some B ->
  validRelative o -> logical o = None ->
  exists r : bool,
    outcome (relativePosition sub ref Right o) = Returned r /\
    (r = true <->
     x A >= right B + orDefault (gap o) 0 + orDefault (tolerance o) 0 /\
     overlapRatio1D (y A) (bottom A) (y B) (bottom B) + orDefault (tolerance o) 0
       >= orDefault (overlapRatio o) 0).
Proof.
  intros HA HB (Hg & Ho & _) Hl.
  rewrite (relativePosition_measured sub ref Right o A B HA HB Hg Ho).
  unfold mapLogical. rewrite Hl. cbv zeta. cbn [outcome].
  eexists. split; [reflexivity|].
  rewrite andb_true_iff. unfold ge. rewrite !num_ge_true.
  split; intros [H1 H2]; split; try assumption; lra.
Qed.

(** The sibling directions left and above do relax with the tolerance. *)
Lemma tolerance_relaxes_left_above (sub ref : LocatorLike) (o : RelativeOptions)
    (A B : BoundingBox) (d : Direction) (t t' : Q) :
  boundingBox sub = Some A -> boundingBox ref = Some B ->
  0 <= orDefault (gap o) 0 -> 0 <= orDefault (overlapRatio o) 0 <= 1 ->
  logical o = None -> d = Left \/ d = Above ->
  t <= t' ->
  outcome (relativePosition sub ref d (setTolerance o t)) = Returned true ->
  outcome (relativePosition sub ref d (setTolerance o t')) = Returned true.
Proof.
  intros HA HB Hg Ho Hl Hd Ht.
  rewrite (relativePosition_measured sub ref d (setTolerance o t) A B HA HB Hg Ho).
  rewrite (relativePosition_measured sub ref d (setTolerance o t') A B HA HB Hg Ho).
  rewrite !mapLogical_no_logical by exact Hl.
  cbn [outcome setTolerance tolerance gap overlapRatio orDefault]. cbv zeta.
  intro H. injection H as H. f_equal.
  destruct Hd as [-> | ->]; apply andb_true_iff in H; destruct H as [H1 H2];
    apply andb_true_iff; unfold le in *;
    rewrite num_le_true, num_ge_true in *; split; lra.
Qed.

(** C2. Tolerance does not only relax: two touching boxes satisfy right (and
    below) with tolerance 0, and the claimed ordering
    subject.x >= right(reference) + gap - tolerance holds with tolerance 5,
    yet the call with tolerance 5 returns false. *)
Theorem tolerance_tightens_right_and_below :
  (outcome (relativePosition (rendered rowRight) (rendered rowLeft) Right
                             (withTolerance 0)) = Returned true /\
   x rowRight >= right rowLeft + 0 - 5 /\
   outcome (relativePosition (rendered rowRight) (rendered rowLeft) Right
                             (withTolerance 5)) = Returned false) /\
  (outcome (relativePosition (rendered columnBottom) (rendered columnTop) Below
                             (withTolerance 0)) = Returned true /\
   y columnBottom >= bottom columnTop + 0 - 5 /\
   outcome (relativePosition (rendered columnBottom) (rendered columnTop) Below
                             (withTolerance 5)) = Returned false).
Proof.
  repeat split; try (vm_compute; reflexivity);
    unfold right, bottom; simpl; lra.
Qed.

(** ** Reading order *)

Lemma allOf_boundingBox (locators : list LocatorLike) :
  allOf awaitBoundingBox locators =
  mkRun (repeat BoxRequested (List.length locators))
        (Returned (map boundingBox locators)).
Proof.
  induction locators as [|l rest IH]; [reflexivity|].
  cbn [allOf]. rewrite IH.
  unfold awaitBoundingBox, request, bind, ret; cbn.
  rewrite app_nil_r. reflexivity.
Qed.

Lemma allMeasured_present (bs : list BoundingBox) :
  allMeasured (map Some bs) = Some bs.
Proof.
  induction bs as [|b rest IH]; [reflexivity|].
  cbn. rewrite IH. reflexivity.
Qed.

Lemma allMeasured_absent (boxes : list (option BoundingBox)) :
  In None boxes -> allMeasured boxes = None.
Proof.
  induction boxes as [|b rest IH]; intro H; [contradiction|].
  destruct b as [b|]; [|reflexivity].
  destruct H as [H|H]; [discriminate|].
  cbn. rewrite (IH H). reflexivity.
Qed.

Lemma adjacentPair_head (prev next : BoundingBox) (rest : list BoundingBox) :
  adjacentPair (prev :: next :: rest) prev next.
Proof. exists 0%nat. split; reflexivity. Qed.

Lemma adjacentPair_tail (b p n : BoundingBox) (rest : list BoundingBox) :
  adjacentPair rest p n -> adjacentPair (b :: rest) p n.
Proof. intros [i [H1 H2]]. exists (S i). split; assumption. Qed.

Lemma eachAdjacent_iff (rel : BoundingBox -> BoundingBox -> bool)
    (bs : list BoundingBox) :
  eachAdjacent rel bs = true <->
  forall prev next, adjacentPair bs prev next -> rel prev next = true.
Proof.
  induction bs as [|b rest IH].
  - split; [|reflexivity].
    intros _ prev next [i [H _]]. destruct i; discriminate.
  - destruct rest as [|c rest'].
    + split; [|reflexivity].
      intros _ prev next [i [_ H]]. destruct i; discriminate.
    + change (eachAdjacent rel (b :: c :: rest'))
        with (if negb (rel b c) then false else eachAdjacent rel (c :: rest')).
      split.
      * intros H prev next [i [H1 H2]].
        destruct (rel b c) eqn:E; [|discriminate]. cbn [negb] in H.
        destruct i as [|i].
        -- cbn in H1, H2. congruence.
        -- apply IH; [exact H|]. exists i. split; assumption.
      * intro H. rewrite (H b c (adjacentPair_head b c rest')). cbn [negb].
        apply IH. intros prev next Hp. apply H.
        apply adjacentPair_tail. exact Hp.
Qed.

(** What [inOrder] decides for right-to-left on measured boxes: each
    predecessor starts at least [tolerance] beyond the right edge of its
    successor. *)
Lemma inOrder_rightToLeft_iff (locators : list LocatorLike)
    (bs : list BoundingBox) (tol : Q) :
  map boundingBox locators = map Some bs ->
  exists r : bool,
    outcome (inOrder locators RightToLeft tol) = Returned r /\
    (r = true <->
     forall prev next, adjacentPair bs prev next -> x prev >= right next + tol).
Proof.
  intro Hm. unfold inOrder. rewrite allOf_boundingBox.
  unfold bind; cbn [outcome probes]. rewrite Hm, allMeasured_present.
  cbn [outcome ret]. eexists. split; [reflexivity|].
  rewrite eachAdjacent_iff.
  split; intros H prev next Hp; specialize (H prev next Hp);
    unfold ge in *; rewrite num_ge_true in *; lra.
Qed.

(** The sibling order left-to-right relaxes with the tolerance. *)
Lemma inOrder_leftToRight_iff (locators : list LocatorLike)
    (bs : list BoundingBox) (tol : Q) :
  map boundingBox locators = map Some bs ->
  exists r : bool,
    outcome (inOrder locators LeftToRight tol) = Returned r /\
    (r = true <->
     forall prev next, adjacentPair bs prev next -> right prev <= x next + tol).
Proof.
  intro Hm. unfold inOrder. rewrite allOf_boundingBox.
  unfold bind; cbn [outcome probes]. rewrite Hm, allMeasured_present.
  cbn [outcome ret]. eexists. split; [reflexivity|].
  rewrite eachAdjacent_iff.
  split; intros H prev next Hp; specialize (H prev next Hp);
    unfold le in *; rewrite num_le_true in *; exact H.
Qed.

(** C4. With tolerance 2, two measured boxes that overlap by one pixel have
    their only consecutive pair within prev.x >= right(next) - tolerance, yet
    [inOrder] with right-to-left returns false. *)
Theorem inOrder_rightToLeft_tolerance_tightens :
  (forall prev next,
      adjacentPair [overlapFirst; overlapSecond] prev next ->
      x prev >= right next - 2) /\
  outcome (inOrder [rendered overlapFirst; rendered overlapSecond] RightToLeft 2)
  = Returned false.
Proof.
  split; [|vm_compute; reflexivity].
  intros prev next [i [H1 H2]].
  destruct i as [|[|i]]; cbn in H1, H2; try discriminate.
  injection H1 as <-. injection H2 as <-. unfold right; simpl; lra.
Qed.

(** ** Viewport visibility *)

(** Without a box or without a viewport [isInViewport] returns false,
    whatever the options are: their validation comes later in the body. *)
Lemma isInViewport_absent (l : LocatorLike) (o : IsInViewportOptions) :
  boundingBox l = None \/ viewportOf l = None ->
  outcome (isInViewport l o) = Returned false.
Proof.
  intro H. unfold isInViewport, tryScroll, awaitBoundingBox, awaitViewportSize.
  unfold viewportOf in H.
  destruct (orDefault (scrollIntoView o) false);
    [destruct (scrollIntoViewIfNeeded l) as [[|]|]|];
    rewrite ?bind_ret_l, ?bind_request; cbn [negb outcome ret];
    try reflexivity.
  all: destruct (boundingBox l) as [b|]; cbn [outcome ret]; try reflexivity.
  all: destruct (num_le (area b) 0); cbn [outcome ret]; try reflexivity.
  all: destruct H as [H|H]; [discriminate|].
  all: destruct (page l) as [p|]; rewrite ?bind_ret_l, ?bind_request;
    cbn [outcome ret]; try reflexivity.
  all: rewrite H; reflexivity.
Qed.

(** C3. Invalid options are not rejected before measuring: with padding -1
    (or threshold 2) an unrendered element or a missing viewport makes
    [isInViewport] return false after the box has been requested, and on a
    rendered element the usage error is thrown only after both the box and
    the viewport have been requested. *)
Theorem isInViewport_validates_after_measuring :
  isInViewport (unrendered viewport800x600) (withPadding (-1))
  = mkRun [BoxRequested] (Returned false) /\
  isInViewport (noViewport rowLeft) (withPadding (-1))
  = mkRun [BoxRequested; ViewportRequested] (Returned false) /\
  isInViewport (unrendered viewport800x600)
               (mkIsInViewportOptions None (Some 2) None None)
  = mkRun [BoxRequested] (Returned false) /\
  isInViewport (rendered rowLeft) (withPadding (-1))
  = mkRun [BoxRequested; ViewportRequested] (Thrown (Negative "padding" (-1))) /\
  isInViewport (rendered rowLeft) (mkIsInViewportOptions None (Some 2) None None)
  = mkRun [BoxRequested; ViewportRequested] (Thrown (NotRatio01 "threshold" 2)).
Proof. repeat split; vm_compute; reflexivity. Qed.

(** C7, as stated, fails: on a 20000 x 20000 viewport a measured element
    placed inside the padded area is in the viewport with padding 5000. *)
Lemma padding_5000_on_large_viewport :
  boundingBox (measured (mkBox 5000 5000 100 100) (mkViewportSize 20000 20000))
  = Some (mkBox 5000 5000 100 100) /\
  viewportOf (measured (mkBox 5000 5000 100 100) (mkViewportSize 20000 20000))
  = Some (mkViewportSize 20000 20000) /\
  outcome (isInViewport
             (measured (mkBox 5000 5000 100 100) (mkViewportSize 20000 20000))
             (withPadding 5000)) = Returned true.
Proof. repeat split; vm_compute; reflexivity. Qed.

(** C7, amended. For every element with a measured box and every viewport
    whose width or height is at most 10000, [isInViewport] with padding 5000
    returns false. *)
Theorem padding_5000_excludes_small_viewport (l : LocatorLike) (b : BoundingBox)
    (vp : ViewportSize) :
  boundingBox l = Some b -> viewportOf l = Some vp ->
  viewportWidth vp <= 10000 \/ viewportHeight vp <= 10000 ->
  outcome (isInViewport l (withPadding 5000)) = Returned false.
Proof.
  intros Hb Hv Hsmall.
  unfold isInViewport, withPadding.
  cbn [padding fullyVisible threshold scrollIntoView orDefault tryScroll].
  rewrite bind_ret_l. cbn [negb].
  unfold awaitBoundingBox. rewrite Hb, bind_request. cbn [outcome].
  destruct (num_le (area b) 0); [reflexivity|].
  unfold awaitViewportSize. unfold viewportOf in Hv.
  destruct (page l) as [p|]; [|discriminate]. rewrite Hv, bind_request.
  cbn [outcome].
  rewrite assertNonNegative_ok by lra. rewrite bind_ret_l.
  rewrite assertRatio01_ok by lra. rewrite bind_ret_l.
  assert (E : num_le (viewportWidth vp - 5000 * 2) 0
              || num_le (viewportHeight vp - 5000 * 2) 0 = true).
  { apply orb_true_iff.
    destruct Hsmall as [H|H]; [left|right]; apply num_le_true; lra. }
  rewrite E. reflexivity.
Qed.

Lemma padding_5000_excludes_small_viewport_witness :
  outcome (isInViewport (rendered (mkBox 0 0 120 80)) (withPadding 5000))
  = Returned false.
Proof.
  apply (padding_5000_excludes_small_viewport
           (rendered (mkBox 0 0 120 80)) (mkBox 0 0 120 80) viewport800x600).
  - reflexivity.
  - reflexivity.
  - left. simpl. lra.
Defined.

(** ** Absent measurements *)

Lemma pair_absent_run (first second : LocatorLike) :
  boundingBox first = None \/ boundingBox second = None ->
  exists boxes : option BoundingBox * option BoundingBox,
    all2 (awaitBoundingBox first) (awaitBoundingBox second)
    = mkRun [BoxRequested; BoxRequested] (Returned boxes) /\
    (fst boxes = None \/ snd boxes = None).
Proof.
  intro H. exists (boundingBox first, boundingBox second).
  split; [reflexivity|exact H].
Qed.

(** C5. With accepted options, an absent box or an absent viewport makes
    every public operation return its negative value, and none of them
    throws: false for [isInViewport], [relativePosition], [areAligned] and
    [inOrder], 0 for the two ratios, null for [edgeDistance]. *)
Theorem absence_resolves_negative
    (l first second : LocatorLike) (locators : list LocatorLike)
    (vo : IsInViewportOptions) (ro : RelativeOptions) (ao : AlignOptions)
    (d : Direction) (order : Order) (tol : Q) :
  validViewport vo -> validRelative ro ->
  (boundingBox l = None \/ viewportOf l = None ->
   outcome (isInViewport l vo) = Returned false /\
   outcome (visibleAreaRatio l) = Returned 0) /\
  (boundingBox first = None \/ boundingBox second = None ->
   outcome (relativePosition first second d ro) = Returned false /\
   outcome (areAligned first second ao) = Returned false /\
   outcome (edgeDistance first second d) = Returned None /\
   outcome (intersectionAreaRatio first second) = Returned 0) /\
  ((exists l' : LocatorLike, In l' locators /\ boundingBox l' = None) ->
   outcome (inOrder locators order tol) = Returned false).
Proof.
  intros _ (Hg & Ho & _). split; [|split].
  - intro H. split; [apply isInViewport_absent; exact H|].
    unfold visibleAreaRatio, awaitBoundingBox, awaitViewportSize.
    unfold viewportOf in H. rewrite bind_request.
    destruct (page l) as [p|]; rewrite ?bind_ret_l, ?bind_request;
      cbn [outcome]; destruct H as [H|H]; try rewrite H;
      try reflexivity; try discriminate;
      destruct (boundingBox l); reflexivity.
  - intro H. destruct (pair_absent_run first second H) as [[A B] [E Hab]].
    cbn [fst snd] in Hab.
    unfold relativePosition, areAligned, edgeDistance, intersectionAreaRatio.
    rewrite (gap_check_ok ro Hg), (overlap_check_ok ro Ho), !bind_ret_l, E.
    unfold bind; cbn [outcome probes].
    destruct Hab as [-> | ->]; [destruct B|destruct A]; repeat split; reflexivity.
  - intros [l' [Hin Hl']]. unfold inOrder. rewrite allOf_boundingBox.
    unfold bind; cbn [outcome probes].
    rewrite allMeasured_absent; [reflexivity|].
    rewrite <- Hl'. apply in_map. exact Hin.
Qed.

Lemma absence_resolves_negative_witness :
  (outcome (isInViewport (unrendered viewport800x600) (withPadding 8)) = Returned false /\
   outcome (visibleAreaRatio (unrendered viewport800x600)) = Returned 0) /\
  (outcome (relativePosition (rendered rowLeft) (unrendered viewport800x600) Left
                             (withTolerance 1)) = Returned false /\
   outcome (areAligned (rendered rowLeft) (unrendered viewport800x600)
                       (mkAlignOptions AxisX Edges None)) = Returned false /\
   outcome (edgeDistance (rendered rowLeft) (unrendered viewport800x600) Left)
   = Returned None /\
   outcome (intersectionAreaRatio (rendered rowLeft) (unrendered viewport800x600))
   = Returned 0) /\
  outcome (inOrder [rendered rowLeft; unrendered viewport800x600] LeftToRight 1)
  = Returned false.
Proof.
  destruct (absence_resolves_negative
              (unrendered viewport800x600)
              (rendered rowLeft) (unrendered viewport800x600)
              [rendered rowLeft; unrendered viewport800x600]
              (withPadding 8) (withTolerance 1) (mkAlignOptions AxisX Edges None)
              Left LeftToRight 1) as (H1 & H2 & H3).
  - unfold validViewport; simpl. split; [lra|intros _; lra].
  - unfold validRelative; simpl. lra.
  - split; [apply H1; left; reflexivity|].
    split; [apply H2; right; reflexivity|].
    apply H3. exists (unrendered viewport800x600).
    split; [right; left; reflexivity|reflexivity].
Defined.

(** ** The scenarios of the test suite *)

Example fully_visible_element :
  outcome (isInViewport (rendered (mkBox 0 0 120 80))
                        (mkIsInViewportOptions (Some true) None None None))
  = Returned true.
Proof. vm_compute. reflexivity. Qed.

Example half_visible_element :
  (exists r : Q,
      outcome (visibleAreaRatio (rendered (mkBox 750 20 100 60))) = Returned r /\
      r == 0.5) /\
  outcome (isInViewport (rendered (mkBox 750 20 100 60))
                        (mkIsInViewportOptions None (Some 0.45) None None))
  = Returned true /\
  outcome (isInViewport (rendered (mkBox 750 20 100 60))
                        (mkIsInViewportOptions None (Some 0.6) None None))
  = Returned false.
Proof.
  split; [|split; vm_compute; reflexivity].
  eexists. split; [vm_compute; reflexivity|reflexivity].
Qed.

Example left_with_gap_and_overlap :
  outcome (relativePosition (rendered (mkBox 20 20 80 50)) (rendered (mkBox 130 20 80 50))
             Left (mkRelativeOptions (Some 0.9) (Some 10) (Some 1) None None))
  = Returned true /\
  outcome (relativePosition (rendered (mkBox 130 20 80 50)) (rendered (mkBox 20 20 80 50))
             Left noRelativeOptions)
  = Returned false.
Proof. repeat split; vm_compute; reflexivity. Qed.

Example above_below_full_overlap :
  outcome (relativePosition (rendered (mkBox 20 110 80 40)) (rendered (mkBox 20 180 80 40))
             Above (mkRelativeOptions (Some 1) None None None None))
  = Returned true /\
  outcome (relativePosition (rendered (mkBox 20 180 80 40)) (rendered (mkBox 20 110 80 40))
             Below (mkRelativeOptions (Some 1) None None None None))
  = Returned true.
Proof. repeat split; vm_compute; reflexivity. Qed.

Example edge_distance_sign :
  outcome (edgeDistance (rendered (mkBox 20 20 80 50)) (rendered (mkBox 130 20 80 50)) Left)
  = Returned (Some 30) /\
  outcome (edgeDistance (rendered (mkBox 130 20 80 50)) (rendered (mkBox 20 20 80 50)) Left)
  = Returned (Some (-190)).
Proof. repeat split; vm_compute; reflexivity. Qed.

Example aligned_within_tolerance :
  outcome (areAligned (rendered (mkBox 2 2 60 30)) (rendered (mkBox 64 2 60 31))
                      (mkAlignOptions AxisX Edges (Some 2))) = Returned true /\
  outcome (areAligned (rendered (mkBox 2 2 60 30)) (rendered (mkBox 64 2 60 31))
                      (mkAlignOptions AxisX Centers (Some 2))) = Returned true /\
  outcome (areAligned (rendered (mkBox 2 2 60 30)) (rendered (mkBox 64 2 60 31))
                      (mkAlignOptions AxisX Edges (Some 0))) = Returned false.
Proof. repeat split; vm_compute; reflexivity. Qed.

Example grid_in_order :
  outcome (inOrder [rendered (mkBox 4 36 20 20); rendered (mkBox 28 36 20 20);
                    rendered (mkBox 52 36 20 20); rendered (mkBox 76 36 20 20)]
                   LeftToRight 1) = Returned true /\
  outcome (inOrder [rendered (mkBox 76 36 20 20); rendered (mkBox 52 36 20 20);
                    rendered (mkBox 28 36 20 20); rendered (mkBox 4 36 20 20)]
                   LeftToRight 1) = Returned false.
Proof. repeat split; vm_compute; reflexivity. Qed.

(** * Further properties of the code *)

(** ** Arithmetic of products and quotients *)

Lemma Qmult_le_mono (a b c d : Q) :
  0 <= a <= b -> 0 <= c <= d -> a * c <= b * d.
Proof. intros [? ?] [? ?]. nra. Qed.

Lemma Qdiv_ge_iff (a b c : Q) : 0 < c -> (a <= b / c <-> a * c <= b).
Proof.
  intro Hc. split.
  - intro H. apply (Qmult_le_r _ _ c Hc) in H.
    unfold Qdiv in H.
    rewrite <- Qmult_assoc, (Qmult_comm (/ c)), Qmult_inv_r in H by lra.
    lra.
  - intro H. apply Qle_shift_div_l; assumption.
Qed.

Lemma Qdiv_le_iff (a b c : Q) : 0 < c -> (b / c <= a <-> b <= a * c).
Proof.
  intro Hc. split.
  - intro H. apply (Qmult_le_r _ _ c Hc) in H.
    unfold Qdiv in H.
    rewrite <- Qmult_assoc, (Qmult_comm (/ c)), Qmult_inv_r in H by lra.
    lra.
  - intro H. apply Qle_shift_div_r; assumption.
Qed.

Lemma num_eq_true (a b : Q) : num_eq a b = true <-> a == b.
Proof. unfold num_eq. apply Qeq_bool_iff. Qed.

Lemma num_eq_false (a b : Q) : num_eq a b = false <-> ~ a == b.
Proof.
  rewrite <- num_eq_true. destruct (num_eq a b); split; intro H;
    try reflexivity; try discriminate; try (intro; discriminate).
  exfalso. apply H. reflexivity.
Qed.

(** Two comparisons agree as soon as they hold in the same cases. *)
Lemma bool_eq_iff (p q : bool) : (p = true <-> q = true) -> p = q.
Proof. destruct p, q; intros [H1 H2]; auto; symmetry; auto. Qed.

(** ** geometry.ts *)

Lemma area_nonneg (b : BoundingBox) : 0 <= area b.
Proof. unfold area. apply Qmult_le_0_compat; minmax. Qed.


(** Boxes that are the same rectangle have the same area. *)
Lemma area_box_eq (a b : BoundingBox) : box_eq a b -> area a == area b.
Proof.
  intros (_ & _ & Hw & Hh). unfold area. rewrite Hw, Hh. reflexivity.
Qed.


Lemma clampVisible_area_le (w h : Q) (b : BoundingBox) :
  area (clampVisible w h b) <= area b.
Proof.
  destruct b as [bx by_ bw bh].
  unfold clampVisible, right, bottom, area; cbn [x y width height].
  apply Qmult_le_mono; split; minmax.
Qed.

Lemma overlapRatio1D_swap (a1 a2 b1 b2 : Q) :
  overlapRatio1D a1 a2 b1 b2 == overlapRatio1D b1 b2 a1 a2.
Proof.
  unfold overlapRatio1D, overlapLen.
  assert (El : Qmin (a2 - a1) (b2 - b1) == Qmin (b2 - b1) (a2 - a1)) by minmax.
  assert (Eo : Qmax 0 (Qmin a2 b2 - Qmax a1 b1) == Qmax 0 (Qmin b2 a2 - Qmax b1 a1))
    by minmax.
  destruct (num_lt 0 (Qmin (a2 - a1) (b2 - b1))) eqn:E1;
    destruct (num_lt 0 (Qmin (b2 - b1) (a2 - a1))) eqn:E2.
  - rewrite El, Eo. reflexivity.
  - apply num_lt_true in E1. apply num_lt_false in E2. lra.
  - apply num_lt_false in E1. apply num_lt_true in E2. lra.
  - reflexivity.
Qed.

(** X3. The overlap ratio of two intervals does not depend on their order. *)
Theorem overlapRatio1D_symmetric (a1 a2 b1 b2 : Q) :
  overlapRatio1D a1 a2 b1 b2 == overlapRatio1D b1 b2 a1 a2.
Proof. apply overlapRatio1D_swap. Qed.



Lemma intersect_comm_box (a b : BoundingBox) :
  box_eq (intersect a b) (intersect b a).
Proof.
  destruct a as [ax ay aw ah], b as [bx by_ bw bh].
  unfold box_eq, intersect, right, bottom; cbn [x y width height].
  repeat split; minmax.
Qed.

(** X5. Intersection is commutative: the two orders give the same rectangle
    and hence the same area. *)
Theorem intersect_commutative (a b : BoundingBox) :
  box_eq (intersect a b) (intersect b a) /\
  area (intersect a b) == area (intersect b a).
Proof.
  split; [apply intersect_comm_box|].
  apply area_box_eq, intersect_comm_box.
Qed.

(** ** isInViewport *)

Lemma scrollRejects_dec (l : LocatorLike) (o : IsInViewportOptions) :
  scrollRejects l o \/ ~ scrollRejects l o.
Proof.
  unfold scrollRejects.
  destruct (orDefault (scrollIntoView o) false);
    [|right; intros [H _]; discriminate].
  destruct (scrollIntoViewIfNeeded l) as [[|]|];
    [right; intros [_ H]; discriminate|left; split; reflexivity
    |right; intros [_ H]; discriminate].
Qed.

Lemma isInViewport_rejected_run (l : LocatorLike) (o : IsInViewportOptions) :
  scrollRejects l o ->
  isInViewport l o = mkRun [ScrollRequested] (Returned false).
Proof.
  intros [Hs Hr]. unfold isInViewport, tryScroll. rewrite Hs, Hr. reflexivity.
Qed.

Lemma isInViewport_zero_area (l : LocatorLike) (o : IsInViewportOptions)
    (b : BoundingBox) :
  boundingBox l = Some b -> area b <= 0 ->
  outcome (isInViewport l o) = Returned false.
Proof.
  intros Hb Ha. apply num_le_true in Ha.
  unfold isInViewport, tryScroll, awaitBoundingBox.
  destruct (orDefault (scrollIntoView o) false);
    [destruct (scrollIntoViewIfNeeded l) as [[|]|]|];
    rewrite ?bind_ret_l, ?bind_request; cbn [negb outcome ret];
    try reflexivity.
  all: rewrite Hb, Ha; reflexivity.
Qed.

(** Once the scroll has not rejected and both measurements are there, the
    call is the two option checks followed by the verdict. *)
Lemma isInViewport_measured (l : LocatorLike) (o : IsInViewportOptions)
    (b : BoundingBox) (vp : ViewportSize) :
  ~ scrollRejects l o ->
  boundingBox l = Some b -> 0 < area b -> viewportOf l = Some vp ->
  outcome (isInViewport l o) =
  outcome (bind (viewportChecks o) (fun _ => ret (viewportVerdict o b vp))).
Proof.
  intros Hs Hb Ha Hv. apply num_le_false in Ha.
  unfold viewportOf in Hv.
  unfold isInViewport, tryScroll, awaitBoundingBox, awaitViewportSize, scrollRejects in *.
  destruct (page l) as [pg|]; [|discriminate].
  destruct (orDefault (scrollIntoView o) false);
    [destruct (scrollIntoViewIfNeeded l) as [[|]|]|];
    rewrite ?bind_ret_l, ?bind_request; cbn [negb outcome ret].
  2: { exfalso. apply Hs. split; reflexivity. }
  all: rewrite Hb, Ha, Hv, ?bind_request; cbn [outcome].
  all: unfold viewportChecks, viewportVerdict, assertNonNegative, assertRatio01.
  all: destruct (num_lt (orDefault (padding o) 0) 0);
    destruct (orDefault (fullyVisible o) false); cbn [negb];
    try destruct (negb (num_ge (orDefault (threshold o) 0) 0 &&
                        num_le (orDefault (threshold o) 0) 1));
    try reflexivity;
    destruct (num_le (viewportWidth vp - orDefault (padding o) 0 * 2) 0
              || num_le (viewportHeight vp - orDefault (padding o) 0 * 2) 0);
    reflexivity.
Qed.

Lemma viewportChecks_ok (o : IsInViewportOptions) :
  validViewport o -> viewportChecks o = ret tt.
Proof.
  intros [Hp Ht]. unfold viewportChecks.
  rewrite (assertNonNegative_ok _ _ Hp), bind_ret_l.
  destruct (orDefault (fullyVisible o) false); cbn [negb]; [reflexivity|].
  apply assertRatio01_ok. apply Ht. reflexivity.
Qed.

Lemma viewportChecks_outcome (o : IsInViewportOptions) (e : UsageError) :
  outcome (viewportChecks o) = Thrown e <->
  (orDefault (padding o) 0 < 0 /\ e = Negative "padding" (orDefault (padding o) 0)) \/
  (0 <= orDefault (padding o) 0 /\
   orDefault (fullyVisible o) false = false /\
   (orDefault (threshold o) 0 < 0 \/ 1 < orDefault (threshold o) 0) /\
   e = NotRatio01 "threshold" (orDefault (threshold o) 0)).
Proof.
  unfold viewportChecks.
  destruct (Qlt_le_dec (orDefault (padding o) 0) 0) as [Hp|Hp].
  - rewrite (assertNonNegative_throws _ _ Hp). cbn. split.
    + intro H. left. split; [exact Hp|congruence].
    + intros [[_ ->]|[Hc _]]; [reflexivity|lra].
  - rewrite (assertNonNegative_ok _ _ Hp), bind_ret_l.
    destruct (orDefault (fullyVisible o) false); cbn [negb].
    + cbn. split; [discriminate|].
      intros [[Hc _]|(_ & Hc & _)]; [lra|discriminate].
    + destruct (Qlt_le_dec (orDefault (threshold o) 0) 0) as [H0|H0];
        [|destruct (Qlt_le_dec 1 (orDefault (threshold o) 0)) as [H1|H1]].
      * rewrite assertRatio01_throws by (left; exact H0). cbn. split.
        -- intro H. right. repeat split; try assumption; [left; exact H0|congruence].
        -- intros [[Hc _]|(_ & _ & _ & ->)]; [lra|reflexivity].
      * rewrite assertRatio01_throws by (right; exact H1). cbn. split.
        -- intro H. right. repeat split; try assumption; [right; exact H1|congruence].
        -- intros [[Hc _]|(_ & _ & _ & ->)]; [lra|reflexivity].
      * rewrite assertRatio01_ok by (split; assumption). cbn. split; [discriminate|].
        intros [[Hc _]|(_ & _ & [Hc|Hc] & _)]; lra.
Qed.

(** X7. [isInViewport] throws exactly when the scroll (if any) did not
    reject, the box is measured with positive area, the viewport is present,
    and either the padding is negative or, outside full-visibility mode, the
    threshold is outside [0,1]; the padding is reported first. *)
Theorem isInViewport_throws_iff (l : LocatorLike) (o : IsInViewportOptions)
    (e : UsageError) :
  outcome (isInViewport l o) = Thrown e <->
  ~ scrollRejects l o /\
  (exists b vp, boundingBox l = Some b /\ 0 < area b /\ viewportOf l = Some vp) /\
  ((orDefault (padding o) 0 < 0 /\ e = Negative "padding" (orDefault (padding o) 0)) \/
   (0 <= orDefault (padding o) 0 /\
    orDefault (fullyVisible o) false = false /\
    (orDefault (threshold o) 0 < 0 \/ 1 < orDefault (threshold o) 0) /\
    e = NotRatio01 "threshold" (orDefault (threshold o) 0))).
Proof.
  rewrite <- viewportChecks_outcome.
  destruct (scrollRejects_dec l o) as [Hs|Hs].
  { destruct Hs as [Hs1 Hs2].
    unfold isInViewport, tryScroll. rewrite Hs1, Hs2. cbn.
    split; [discriminate|]. intros [Hn _]. exfalso. apply Hn. split; assumption. }
  destruct (boundingBox l) as [b|] eqn:Hb.
  2: { rewrite isInViewport_absent by (left; exact Hb).
       split; [discriminate|]. intros (_ & (b & vp & H & _) & _). discriminate. }
  destruct (Qlt_le_dec 0 (area b)) as [Ha|Ha].
  2: { rewrite (isInViewport_zero_area l o b Hb Ha).
       split; [discriminate|]. intros (_ & (b' & vp & H & Hp & _) & _).
       injection H as <-. lra. }
  destruct (viewportOf l) as [vp|] eqn:Hv.
  2: { rewrite isInViewport_absent by (right; exact Hv).
       split; [discriminate|]. intros (_ & (b' & vp & _ & _ & H) & _). discriminate. }
  rewrite (isInViewport_measured l o b vp Hs Hb Ha Hv).
  unfold bind. destruct (outcome (viewportChecks o)) as [[]|e'] eqn:E; cbn [outcome ret].
  - split; [discriminate|]. intros (_ & _ & H). discriminate.
  - split.
    + intro H. repeat split; [exact Hs|exists b, vp; auto|congruence].
    + intros (_ & _ & H). congruence.
Qed.

Lemma isInViewport_accepted (l : LocatorLike) (o : IsInViewportOptions)
    (b : BoundingBox) (vp : ViewportSize) :
  validViewport o -> ~ scrollRejects l o ->
  boundingBox l = Some b -> 0 < area b -> viewportOf l = Some vp ->
  outcome (isInViewport l o) = Returned (viewportVerdict o b vp).
Proof.
  intros Hval Hs Hb Ha Hv.
  rewrite (isInViewport_measured l o b vp Hs Hb Ha Hv).
  rewrite (viewportChecks_ok o Hval), bind_ret_l. reflexivity.
Qed.



(** X10. Lowering the threshold only relaxes [isInViewport]: a call that
    returns true with a threshold in [0,1] returns true with every smaller
    threshold in [0,1], the other options unchanged. *)
Theorem isInViewport_threshold_antitone (l : LocatorLike)
    (fv : option bool) (p : option Q) (s : option bool) (t t' : Q) :
  0 <= t' -> t' <= t -> t <= 1 ->
  outcome (isInViewport l (mkIsInViewportOptions fv (Some t) p s)) = Returned true ->
  outcome (isInViewport l (mkIsInViewportOptions fv (Some t') p s)) = Returned true.
Proof.
  intros H0 Hle H1.
  set (o := mkIsInViewportOptions fv (Some t) p s).
  set (o' := mkIsInViewportOptions fv (Some t') p s).
  destruct (scrollRejects_dec l o) as [Hs|Hs].
  { rewrite (isInViewport_rejected_run l o Hs). intro Hc; discriminate Hc. }
  assert (Hs' : ~ scrollRejects l o') by exact Hs.
  destruct (boundingBox l) as [b|] eqn:Hb.
  2: { rewrite (isInViewport_absent l o) by (left; exact Hb). intro Hc; discriminate Hc. }
  destruct (Qlt_le_dec 0 (area b)) as [Ha|Ha].
  2: { rewrite (isInViewport_zero_area l o b Hb Ha). intro Hc; discriminate Hc. }
  destruct (viewportOf l) as [vp|] eqn:Hv.
  2: { rewrite (isInViewport_absent l o) by (right; exact Hv). intro Hc; discriminate Hc. }
  rewrite (isInViewport_measured l o b vp Hs Hb Ha Hv).
  destruct (Qlt_le_dec (orDefault p 0) 0) as [Hp|Hp].
  { unfold viewportChecks. cbn [padding o].
    rewrite (assertNonNegative_throws _ _ Hp).
    unfold bind, throw; cbn [outcome probes]. intro Hc; discriminate Hc. }
  assert (Hval : validViewport o).
  { split; [exact Hp|]. intros _. cbn. lra. }
  assert (Hval' : validViewport o').
  { split; [exact Hp|]. intros _. cbn. lra. }
  rewrite (viewportChecks_ok o Hval), bind_ret_l.
  rewrite (isInViewport_accepted l o' b vp Hval' Hs' Hb Ha Hv).
  unfold viewportVerdict. cbn [outcome ret fullyVisible threshold padding o o' orDefault].
  match goal with
  | |- context [if ?guard then false else _] => destruct guard
  end; [intro Hc; discriminate Hc|].
  destruct (orDefault fv false); [intro H; exact H|].
  intro H. injection H as H. f_equal.
  rewrite num_ge_true in *. lra.
Qed.

Lemma isInViewport_threshold_antitone_witness :
  outcome (isInViewport (rendered (mkBox 750 20 100 60))
                        (mkIsInViewportOptions None (Some 0.25) None None))
  = Returned true.
Proof.
  apply (isInViewport_threshold_antitone
           (rendered (mkBox 750 20 100 60)) None None None 0.45 0.25).
  - lra.
  - lra.
  - lra.
  - vm_compute. reflexivity.
Defined.

(** X11. The scroll is best effort.  A requested scroll that rejects ends the
    call with false after the scroll request alone: nothing is measured and
    no option is validated.  On a locator without the scroll method the
    option changes nothing, and a scroll that resolves only adds its request
    in front of the run that the call makes without it. *)
Theorem isInViewport_scroll_best_effort (l : LocatorLike) (o : IsInViewportOptions) :
  (scrollRejects l o ->
   isInViewport l o = mkRun [ScrollRequested] (Returned false)) /\
  (scrollIntoViewIfNeeded l = None ->
   isInViewport l o = isInViewport l (withoutScroll o)) /\
  (orDefault (scrollIntoView o) false = true ->
   scrollIntoViewIfNeeded l = Some true ->
   isInViewport l o =
   mkRun (ScrollRequested :: probes (isInViewport l (withoutScroll o)))
         (outcome (isInViewport l (withoutScroll o)))).
Proof.
  split; [|split].
  - apply isInViewport_rejected_run.
  - intro Hn. unfold isInViewport, tryScroll, withoutScroll.
    cbn [fullyVisible threshold padding scrollIntoView orDefault].
    rewrite Hn. destruct (orDefault (scrollIntoView o) false); reflexivity.
  - intros Hs Hr. unfold isInViewport, tryScroll, withoutScroll.
    cbn [fullyVisible threshold padding scrollIntoView orDefault].
    rewrite Hs, Hr, bind_request, bind_ret_l. reflexivity.
Qed.

Lemma isInViewport_scroll_best_effort_witness :
  isInViewport (mkLocator (Some rowLeft) (Some (mkPage (Some viewport800x600))) (Some false))
               (mkIsInViewportOptions None None (Some (-1)) (Some true))
  = mkRun [ScrollRequested] (Returned false) /\
  isInViewport (rendered rowLeft) (mkIsInViewportOptions None None None (Some true))
  = isInViewport (rendered rowLeft)
                 (withoutScroll (mkIsInViewportOptions None None None (Some true))) /\
  isInViewport (mkLocator (Some rowLeft) (Some (mkPage (Some viewport800x600))) (Some true))
               (mkIsInViewportOptions None None None (Some true))
  = mkRun [ScrollRequested; BoxRequested; ViewportRequested] (Returned true).
Proof.
  destruct (isInViewport_scroll_best_effort
              (mkLocator (Some rowLeft) (Some (mkPage (Some viewport800x600))) (Some false))
              (mkIsInViewportOptions None None (Some (-1)) (Some true))) as [H0 _].
  destruct (isInViewport_scroll_best_effort (rendered rowLeft)
              (mkIsInViewportOptions None None None (Some true))) as (_ & H1 & _).
  destruct (isInViewport_scroll_best_effort
              (mkLocator (Some rowLeft) (Some (mkPage (Some viewport800x600))) (Some true))
              (mkIsInViewportOptions None None None (Some true))) as (_ & _ & H2).
  split; [|split].
  - apply H0. split; reflexivity.
  - apply H1. reflexivity.
  - rewrite H2; reflexivity.
Defined.

(** ** The two area ratios *)

(** A quotient of a part by the whole is unchanged by the clamp to [0,1]. *)
Lemma clamp01_of_part (part whole : Q) :
  0 <= part <= whole -> 0 < whole ->
  Qmin 1 (Qmax 0 (part / whole)) == part / whole /\ 0 <= part / whole <= 1.
Proof.
  intros [H0 H1] Hw.
  assert (Hlo : 0 <= part / whole) by (apply Qdiv_ge_iff; [exact Hw|lra]).
  assert (Hhi : part / whole <= 1) by (apply Qdiv_le_iff; [exact Hw|lra]).
  split; [|split; assumption].
  split_max 0 (part / whole); split_min 1 (Qmax 0 (part / whole)); lra.
Qed.

Lemma num_eq_area_pos (b : BoundingBox) : 0 < area b -> num_eq (area b) 0 = false.
Proof. intro H. apply num_eq_false. intro E. lra. Qed.

Lemma visibleAreaRatio_measured (l : LocatorLike) (b : BoundingBox)
    (vp : ViewportSize) :
  boundingBox l = Some b -> viewportOf l = Some vp -> 0 < area b ->
  visibleAreaRatio l =
  mkRun [BoxRequested; ViewportRequested]
    (Returned (Qmin 1 (Qmax 0
       (area (clampVisible (viewportWidth vp) (viewportHeight vp) b) / area b)))).
Proof.
  intros Hb Hv Ha.
  unfold visibleAreaRatio, awaitBoundingBox, awaitViewportSize.
  unfold viewportOf in Hv.
  destruct (page l) as [pg|]; [|discriminate].
  rewrite Hb, Hv. unfold request, bind; cbn [outcome probes].
  rewrite (num_eq_area_pos b Ha). reflexivity.
Qed.


Lemma clampVisible_unpadded (p w h : Q) (b : BoundingBox) :
  p == 0 ->
  area (clampVisible (w - p * 2) (h - p * 2)
          (mkBox (x b - p) (y b - p) (width b) (height b)))
  == area (clampVisible w h b).
Proof.
  intro Hp. apply area_box_eq.
  destruct b as [bx by_ bw bh].
  unfold box_eq, clampVisible, right, bottom; cbn [x y width height].
  repeat split; minmax.
Qed.

(** X16. When the requested scroll, if any, does not reject, without padding
    and outside full-visibility mode, [isInViewport] with a threshold in
    [0,1] answers whether [visibleAreaRatio] reaches the threshold, for a
    box of positive area in a viewport of positive size. *)
Theorem isInViewport_agrees_with_ratio (l : LocatorLike) (o : IsInViewportOptions)
    (b : BoundingBox) (vp : ViewportSize) :
  ~ scrollRejects l o ->
  boundingBox l = Some b -> viewportOf l = Some vp ->
  0 < area b -> 0 < viewportWidth vp -> 0 < viewportHeight vp ->
  orDefault (fullyVisible o) false = false ->
  orDefault (padding o) 0 == 0 ->
  0 <= orDefault (threshold o) 0 <= 1 ->
  exists r : Q,
    outcome (visibleAreaRatio l) = Returned r /\
    outcome (isInViewport l o) = Returned (num_ge r (orDefault (threshold o) 0)).
Proof.
  intros Hs Hb Hv Ha Hw Hh Hfv Hp Ht.
  assert (Hval : validViewport o).
  { split; [lra|intros _; exact Ht]. }
  rewrite (visibleAreaRatio_measured l b vp Hb Hv Ha). cbn [outcome].
  rewrite (isInViewport_accepted l o b vp Hval Hs Hb Ha Hv).
  eexists. split; [reflexivity|]. f_equal.
  unfold viewportVerdict. rewrite Hfv.
  assert (Ew : num_le (viewportWidth vp - orDefault (padding o) 0 * 2) 0 = false)
    by (apply num_le_false; lra).
  assert (Eh : num_le (viewportHeight vp - orDefault (padding o) 0 * 2) 0 = false)
    by (apply num_le_false; lra).
  rewrite Ew, Eh. cbn [orb].
  pose proof (clampVisible_area_le (viewportWidth vp) (viewportHeight vp) b) as Hle.
  pose proof (area_nonneg (clampVisible (viewportWidth vp) (viewportHeight vp) b)) as Hc.
  destruct (clamp01_of_part _ _ (conj Hc Hle) Ha) as [Heq _].
  apply bool_eq_iff. rewrite !num_ge_true.
  rewrite Heq, (clampVisible_unpadded _ _ _ b Hp). reflexivity.
Qed.

Lemma isInViewport_agrees_with_ratio_witness :
  exists r : Q,
    outcome (visibleAreaRatio (rendered (mkBox 750 20 100 60))) = Returned r /\
    outcome (isInViewport (rendered (mkBox 750 20 100 60))
                          (mkIsInViewportOptions None (Some 0.6) None None))
    = Returned (num_ge r 0.6).
Proof.
  apply (isInViewport_agrees_with_ratio
           (rendered (mkBox 750 20 100 60))
           (mkIsInViewportOptions None (Some 0.6) None None)
           (mkBox 750 20 100 60) viewport800x600).
  - intros [H _]. discriminate.
  - reflexivity.
  - reflexivity.
  - vm_compute. reflexivity.
  - vm_compute. reflexivity.
  - vm_compute. reflexivity.
  - reflexivity.
  - simpl. reflexivity.
  - simpl. lra.
Defined.

(** ** relativePosition *)

(** X17. [relativePosition] validates before it measures: a negative gap, and
    otherwise an overlap ratio outside [0,1], ends the call with the usage
    error and no request to the collaborator, whatever the locators; with
    both accepted the call requests the two boxes and returns. *)
Theorem relativePosition_validates_first (first second : LocatorLike)
    (d : Direction) (o : RelativeOptions) :
  (forall g, gap o = Some g -> g < 0 ->
     relativePosition first second d o = mkRun [] (Thrown (Negative "gap" g))) /\
  (forall r, 0 <= orDefault (gap o) 0 -> overlapRatio o = Some r -> r < 0 \/ 1 < r ->
     relativePosition first second d o
     = mkRun [] (Thrown (NotRatio01 "overlapRatio" r))) /\
  (0 <= orDefault (gap o) 0 -> 0 <= orDefault (overlapRatio o) 0 <= 1 ->
     probes (relativePosition first second d o) = [BoxRequested; BoxRequested] /\
     exists r : bool, outcome (relativePosition first second d o) = Returned r).
Proof.
  split; [|split].
  - intros g Hg Hneg. unfold relativePosition. rewrite Hg.
    rewrite (assertNonNegative_throws g "gap" Hneg). reflexivity.
  - intros r Hg Hr Hbad. unfold relativePosition.
    rewrite (gap_check_ok o Hg), bind_ret_l, Hr.
    rewrite (assertRatio01_throws r "overlapRatio" Hbad). reflexivity.
  - intros Hg Ho. unfold relativePosition.
    rewrite (gap_check_ok o Hg), (overlap_check_ok o Ho), !bind_ret_l.
    unfold all2, awaitBoundingBox, request, bind. cbn [outcome probes ret].
    destruct (boundingBox first) as [A|], (boundingBox second) as [B|];
      try (split; [reflexivity|eexists; reflexivity]).
    destruct (mapLogical d o); split; try reflexivity; eexists; reflexivity.
Qed.

Lemma relativePosition_validates_first_witness :
  relativePosition (unrendered viewport800x600) (unrendered viewport800x600) Left
                   (mkRelativeOptions None (Some (-1)) None None None)
  = mkRun [] (Thrown (Negative "gap" (-1))) /\
  relativePosition (unrendered viewport800x600) (unrendered viewport800x600) Left
                   (mkRelativeOptions (Some 2) (Some 1) None None None)
  = mkRun [] (Thrown (NotRatio01 "overlapRatio" 2)) /\
  probes (relativePosition (rendered rowLeft) (unrendered viewport800x600) Left
                           noRelativeOptions) = [BoxRequested; BoxRequested].
Proof.
  split; [|split].
  - apply (relativePosition_validates_first
             (unrendered viewport800x600) (unrendered viewport800x600) Left
             (mkRelativeOptions None (Some (-1)) None None None)).
    + reflexivity.
    + lra.
  - apply (relativePosition_validates_first
             (unrendered viewport800x600) (unrendered viewport800x600) Left
             (mkRelativeOptions (Some 2) (Some 1) None None None)).
    + simpl. lra.
    + reflexivity.
    + right. lra.
  - apply (relativePosition_validates_first
             (rendered rowLeft) (unrendered viewport800x600) Left noRelativeOptions).
    + simpl. lra.
    + simpl. lra.
Defined.

(** ** areAligned *)

Lemma within_true (v t tol : Q) : within v t tol = true <-> - tol <= v - t <= tol.
Proof.
  unfold within. rewrite num_le_true. apply Qabs_Qle_condition.
Qed.


Lemma within_sym (v t tol : Q) : within v t tol = within t v tol.
Proof. apply bool_eq_iff. rewrite !within_true. split; intros [? ?]; split; lra. Qed.

Lemma areAligned_measured (first second : LocatorLike) (o : AlignOptions)
    (A B : BoundingBox) :
  boundingBox first = Some A -> boundingBox second = Some B ->
  areAligned first second o =
  mkRun [BoxRequested; BoxRequested]
    (Returned
       (let tolerance := orDefault (alignTolerance o) 1 in
        match axis o, mode o with
        | AxisX, Edges =>
            within (y A) (y B) tolerance && within (bottom A) (bottom B) tolerance
        | AxisX, Centers =>
            within (y A + height A / 2) (y B + height B / 2) tolerance
        | AxisY, Edges =>
            within (x A) (x B) tolerance && within (right A) (right B) tolerance
        | AxisY, Centers =>
            within (x A + width A / 2) (x B + width B / 2) tolerance
        end)).
Proof.
  intros HA HB. unfold areAligned, all2, awaitBoundingBox, request, bind.
  cbn [outcome probes ret]. rewrite HA, HB.
  destruct (axis o), (mode o); reflexivity.
Qed.

Lemma areAligned_unmeasured (first second : LocatorLike) (o : AlignOptions) :
  boundingBox first = None \/ boundingBox second = None ->
  areAligned first second o = mkRun [BoxRequested; BoxRequested] (Returned false).
Proof.
  intro H. unfold areAligned, all2, awaitBoundingBox, request, bind.
  cbn [outcome probes ret].
  destruct H as [-> | ->]; [|destruct (boundingBox first)]; reflexivity.
Qed.

(** X22. Alignment is symmetric: swapping the two locators never changes the
    run, whether the boxes are measured or not. *)
Theorem areAligned_symmetric (first second : LocatorLike) (o : AlignOptions) :
  areAligned first second o = areAligned second first o.
Proof.
  destruct (boundingBox first) as [A|] eqn:HA.
  2: { rewrite (areAligned_unmeasured first second o) by (left; exact HA).
       rewrite (areAligned_unmeasured second first o) by (right; exact HA).
       reflexivity. }
  destruct (boundingBox second) as [B|] eqn:HB.
  2: { rewrite (areAligned_unmeasured first second o) by (right; exact HB).
       rewrite (areAligned_unmeasured second first o) by (left; exact HB).
       reflexivity. }
  rewrite (areAligned_measured first second o A B HA HB).
  rewrite (areAligned_measured second first o B A HB HA).
  cbv zeta. do 2 f_equal.
  destruct (axis o), (mode o);
    rewrite ?(within_sym (y A)), ?(within_sym (bottom A)),
            ?(within_sym (x A)), ?(within_sym (right A)),
            ?(within_sym (y A + height A / 2)), ?(within_sym (x A + width A / 2));
    reflexivity.
Qed.



(** ** inOrder *)

Lemma allMeasured_some (boxes : list (option BoundingBox)) (bs : list BoundingBox) :
  allMeasured boxes = Some bs -> boxes = map Some bs.
Proof.
  revert bs. induction boxes as [|b rest IH]; intros bs H.
  - injection H as <-. reflexivity.
  - destruct b as [b|]; [|discriminate]. cbn in H.
    destruct (allMeasured rest) as [bs'|]; [|discriminate].
    injection H as <-. cbn. f_equal. apply IH. reflexivity.
Qed.

Lemma allMeasured_none (boxes : list (option BoundingBox)) :
  allMeasured boxes = None -> In None boxes.
Proof.
  induction boxes as [|b rest IH]; intro H; [discriminate|].
  destruct b as [b|]; [|left; reflexivity]. cbn in H.
  destruct (allMeasured rest); [discriminate|]. right. apply IH. reflexivity.
Qed.

Lemma allMeasured_rev (boxes : list (option BoundingBox)) :
  allMeasured (rev boxes) =
  match allMeasured boxes with
  | Some bs => Some (rev bs)
  | None => None
  end.
Proof.
  destruct (allMeasured boxes) as [bs|] eqn:E.
  - apply allMeasured_some in E. rewrite E, <- map_rev. apply allMeasured_present.
  - apply allMeasured_none in E. apply allMeasured_absent.
    apply in_rev. rewrite rev_involutive. exact E.
Qed.

(** Adjacent pairs are the two-element windows of the sequence. *)
Lemma adjacentPair_split (bs : list BoundingBox) (prev next : BoundingBox) :
  adjacentPair bs prev next <->
  exists l1 l2, bs = l1 ++ prev :: next :: l2.
Proof.
  split.
  - intros [i [H1 H2]]. revert i H1 H2.
    induction bs as [|b rest IH]; intros i H1 H2; [destruct i; discriminate|].
    destruct i as [|i].
    + cbn in H1, H2. injection H1 as ->.
      destruct rest as [|c rest']; [discriminate|]. cbn in H2. injection H2 as ->.
      exists [], rest'. reflexivity.
    + cbn in H1. destruct (IH i H1 H2) as [l1 [l2 E]].
      exists (b :: l1), l2. rewrite E. reflexivity.
  - intros [l1 [l2 ->]]. induction l1 as [|a l1 IH].
    + apply adjacentPair_head.
    + apply adjacentPair_tail. exact IH.
Qed.

Lemma adjacentPair_rev (bs : list BoundingBox) (prev next : BoundingBox) :
  adjacentPair (rev bs) prev next <-> adjacentPair bs next prev.
Proof.
  rewrite !adjacentPair_split. split.
  - intros [l1 [l2 E]]. exists (rev l2), (rev l1).
    rewrite <- (rev_involutive bs), E, rev_app_distr. cbn.
    rewrite <- !app_assoc. reflexivity.
  - intros [l1 [l2 ->]]. exists (rev l2), (rev l1).
    rewrite rev_app_distr. cbn. rewrite <- !app_assoc. reflexivity.
Qed.

Lemma eachAdjacent_rev (rel : BoundingBox -> BoundingBox -> bool)
    (bs : list BoundingBox) :
  eachAdjacent rel (rev bs) = eachAdjacent (fun prev next => rel next prev) bs.
Proof.
  apply bool_eq_iff. rewrite !eachAdjacent_iff. split.
  - intros H prev next Hp. apply H. apply adjacentPair_rev. exact Hp.
  - intros H prev next Hp. apply H. apply adjacentPair_rev. exact Hp.
Qed.

Lemma eachAdjacent_weaken (rel rel' : BoundingBox -> BoundingBox -> bool)
    (bs : list BoundingBox) :
  (forall prev next, rel prev next = true -> rel' prev next = true) ->
  eachAdjacent rel bs = true -> eachAdjacent rel' bs = true.
Proof.
  intro Hw. rewrite !eachAdjacent_iff. intros H prev next Hp.
  apply Hw, H, Hp.
Qed.

(** The run of [inOrder]: every box is requested, and the answer is false
    when one is absent and the walk over adjacent pairs otherwise. *)
Lemma inOrder_run (locators : list LocatorLike) (order : Order) (tol : Q) :
  inOrder locators order tol =
  mkRun (repeat BoxRequested (List.length locators))
    (Returned
       match allMeasured (map boundingBox locators) with
       | None => false
       | Some b =>
           match order with
           | LeftToRight =>
               eachAdjacent (fun prev next => le (right prev) (x next) tol) b
           | RightToLeft =>
               eachAdjacent (fun prev next => ge (x prev) (right next) (- tol)) b
           | TopToBottom =>
               eachAdjacent (fun prev next => le (bottom prev) (y next) tol) b
           | BottomToTop =>
               eachAdjacent (fun prev next => ge (y prev) (bottom next) (- tol)) b
           end
       end).
Proof.
  unfold inOrder. rewrite allOf_boundingBox.
  unfold bind; cbn [outcome probes].
  destruct (allMeasured (map boundingBox locators)); [destruct order|];
    cbn [ret outcome probes]; rewrite app_nil_r; reflexivity.
Qed.

(** X26. [inOrder] requests the box of every locator exactly once, also
    after an absent one, validates nothing and never throws; on an empty
    sequence, and on a single measured element, it returns true for every
    order and tolerance. *)
Theorem inOrder_requests_all (locators : list LocatorLike) (order : Order) (tol : Q) :
  probes (inOrder locators order tol) = repeat BoxRequested (List.length locators) /\
  (exists r : bool, outcome (inOrder locators order tol) = Returned r) /\
  inOrder [] order tol = mkRun [] (Returned true) /\
  (forall l b, boundingBox l = Some b ->
     inOrder [l] order tol = mkRun [BoxRequested] (Returned true)).
Proof.
  split; [|split; [|split]].
  - rewrite inOrder_run. reflexivity.
  - rewrite inOrder_run. eexists. reflexivity.
  - rewrite inOrder_run. destruct order; reflexivity.
  - intros l b Hb. rewrite inOrder_run. cbn [map allMeasured List.length repeat].
    rewrite Hb. destruct order; reflexivity.
Qed.

(** X27. With tolerance 0 a sequence is in left-to-right order exactly when
    the reversed sequence is in right-to-left order, and in top-to-bottom
    order exactly when the reversed sequence is in bottom-to-top order. *)
Theorem inOrder_reversed (locators : list LocatorLike) :
  outcome (inOrder (rev locators) RightToLeft 0)
  = outcome (inOrder locators LeftToRight 0) /\
  outcome (inOrder (rev locators) BottomToTop 0)
  = outcome (inOrder locators TopToBottom 0).
Proof.
  rewrite !inOrder_run. cbn [outcome].
  rewrite map_rev, allMeasured_rev.
  destruct (allMeasured (map boundingBox locators)) as [bs|];
    [|split; reflexivity].
  split; f_equal; rewrite eachAdjacent_rev; reflexivity.
Qed.

(** X28. For left-to-right and top-to-bottom a larger tolerance only
    relaxes: a sequence in order under a tolerance stays in order under any
    larger one. *)
Theorem inOrder_forward_tolerance_relaxes (locators : list LocatorLike)
    (order : Order) (t t' : Q) :
  order = LeftToRight \/ order = TopToBottom ->
  t <= t' ->
  outcome (inOrder locators order t) = Returned true ->
  outcome (inOrder locators order t') = Returned true.
Proof.
  intros Ho Ht. rewrite !inOrder_run. cbn [outcome].
  destruct (allMeasured (map boundingBox locators)) as [bs|]; [|discriminate].
  intro H. injection H as H. f_equal.
  destruct Ho as [-> | ->]; revert H; apply eachAdjacent_weaken;
    intros prev next; unfold le; rewrite !num_le_true; lra.
Qed.

Lemma inOrder_forward_tolerance_relaxes_witness :
  outcome (inOrder [rendered (mkBox 4 36 20 20); rendered (mkBox 23 36 20 20)]
                   LeftToRight 2) = Returned true.
Proof.
  apply (inOrder_forward_tolerance_relaxes
           [rendered (mkBox 4 36 20 20); rendered (mkBox 23 36 20 20)]
           LeftToRight 1 2).
  - left. reflexivity.
  - lra.
  - vm_compute. reflexivity.
Defined.

(** ** mapLogical *)

(** X29. A horizontal request stays horizontal under the logical mapping;
    start and end resolve to opposite sides, and so do ltr and rtl; an
    absent writing direction is ltr. *)
Theorem mapLogical_opposites (ov g t : option Q) (d : Direction) :
  d = Left \/ d = Right ->
  (forall o : RelativeOptions, mapLogical d o = Left \/ mapLogical d o = Right) /\
  (forall w : option WritingDirection,
      mapLogical d (mkRelativeOptions ov g t (Some LogicalStart) w)
      <> mapLogical d (mkRelativeOptions ov g t (Some LogicalEnd) w)) /\
  (forall lg : Logical,
      mapLogical d (mkRelativeOptions ov g t (Some lg) (Some Ltr))
      <> mapLogical d (mkRelativeOptions ov g t (Some lg) (Some Rtl)) /\
      mapLogical d (mkRelativeOptions ov g t (Some lg) None)
      = mapLogical d (mkRelativeOptions ov g t (Some lg) (Some Ltr))) /\
  mapLogical d (mkRelativeOptions ov g t (Some LogicalStart) (Some Ltr)) = Left /\
  mapLogical d (mkRelativeOptions ov g t (Some LogicalStart) (Some Rtl)) = Right.
Proof.
  intro Hd. split; [|split; [|split; [|split]]].
  - intro o. unfold mapLogical.
    destruct Hd as [-> | ->]; destruct (logical o) as [[|]|];
      destruct (orDefault (writingDirection o) Ltr); auto.
  - intros [[|]|]; destruct Hd as [-> | ->]; cbn; discriminate.
  - intros [|]; destruct Hd as [-> | ->]; cbn; split;
      try discriminate; reflexivity.
  - destruct Hd as [-> | ->]; reflexivity.
  - destruct Hd as [-> | ->]; reflexivity.
Qed.

Lemma mapLogical_opposites_witness :
  mapLogical Right (mkRelativeOptions None None None (Some LogicalStart) (Some Ltr)) = Left /\
  mapLogical Right (mkRelativeOptions None None None (Some LogicalStart) (Some Rtl)) = Right.
Proof.
  apply (mapLogical_opposites None None None Right).
  right. reflexivity.
Defined.

(** ** Bounds that rounding does not disturb *)

(** X2. The clamped box starts at non-negative coordinates, and its width and
    height are non-negative and at most the viewport's, floored at zero. *)
Theorem clampVisible_within_viewport (w h : Q) (b : BoundingBox) :
  0 <= x (clampVisible w h b) /\ 0 <= y (clampVisible w h b) /\
  0 <= width (clampVisible w h b) <= Qmax 0 w /\
  0 <= height (clampVisible w h b) <= Qmax 0 h.
Proof.
  destruct b as [bx by_ bw bh].
  unfold clampVisible, right, bottom; cbn [x y width height].
  repeat split; minmax.
Qed.



(** X21. The distance from A to the left of B is the distance from B to the
    right of A, and the distance from A above B is the distance from B below
    A: each pair is the same run, whether the boxes are measured or not. *)
Theorem edgeDistance_converse (first second : LocatorLike) :
  edgeDistance first second Left = edgeDistance second first Right /\
  edgeDistance first second Above = edgeDistance second first Below.
Proof.
  unfold edgeDistance, all2, awaitBoundingBox, request, bind.
  cbn [outcome probes ret].
  destruct (boundingBox first), (boundingBox second); split; reflexivity.
Qed.

(** * Properties of the binary64 model *)

Section Binary64Properties.

Import FloatClass PrimFloat SpecFloat FloatOps FloatAxioms.
Import Binary64.
Local Open Scope float_scope.

(** ** Order facts of binary64 used below *)

Lemma b64_lt_le (a b : float) : num_lt a b = true -> num_le a b = true.
Proof.
  unfold num_lt, num_le. rewrite ltb_spec, leb_spec. unfold SFltb, SFleb.
  destruct (SFcompare (Prim2SF a) (Prim2SF b)) as [[| |]|]; congruence.
Qed.

Lemma b64_nonneg_not_negative (v : float) :
  num_le 0 v = true -> num_lt v 0 = false.
Proof.
  unfold num_lt, num_le. rewrite ltb_spec, leb_spec. unfold SFltb, SFleb.
  replace (Prim2SF 0) with (S754_zero false) by reflexivity.
  destruct (Prim2SF v) as [s|s| |s m e]; try destruct s; simpl; congruence.
Qed.

(** ** The run monad *)

Lemma b64_bind_ret_l {A B : Type} (a : A) (k : A -> Run B) : bind (ret a) k = k a.
Proof. unfold bind, ret; simpl. destruct (k a); reflexivity. Qed.

Lemma b64_assertNonNegative_ok (v : float) (label : string) :
  num_le 0 v = true -> assertNonNegative v label = ret tt.
Proof.
  intro H. unfold assertNonNegative.
  rewrite (b64_nonneg_not_negative v H). reflexivity.
Qed.

Lemma b64_assertRatio01_ok (v : float) (label : string) :
  num_le 0 v = true -> num_le v 1 = true -> assertRatio01 v label = ret tt.
Proof.
  intros H0 H1. unfold assertRatio01.
  change (num_ge v 0) with (num_le 0 v). rewrite H0, H1. reflexivity.
Qed.

Lemma b64_gap_check_ok (o : RelativeOptions) :
  num_le 0 (orDefault (gap o) 0) = true ->
  match gap o with
  | Some g => assertNonNegative g "gap"
  | None => ret tt
  end = ret tt.
Proof.
  destruct (gap o); simpl; intro H;
    [apply b64_assertNonNegative_ok; exact H|reflexivity].
Qed.

Lemma b64_overlap_check_ok (o : RelativeOptions) :
  num_le 0 (orDefault (overlapRatio o) 0) = true ->
  num_le (orDefault (overlapRatio o) 0) 1 = true ->
  match overlapRatio o with
  | Some r => assertRatio01 r "overlapRatio"
  | None => ret tt
  end = ret tt.
Proof.
  destruct (overlapRatio o); simpl; intros H0 H1;
    [apply b64_assertRatio01_ok; assumption|reflexivity].
Qed.

(** ** relativePosition *)

(** C1. For measured boxes and accepted options without a logical mapping,
    [relativePosition] with direction left returns, and returns true exactly
    when right(A) <= B.x - gap + tolerance and the overlap ratio of the two
    y-intervals plus the tolerance reaches the required overlap, each sum and
    difference being the rounded binary64 one that the code computes, in the
    code's order. *)
Theorem relativePosition_left_iff (sub ref : LocatorLike) (o : RelativeOptions)
    (A B : BoundingBox) :
  boundingBox sub = Some A -> boundingBox ref = Some B ->
  validRelative o -> logical o = None ->
  exists r : bool,
    outcome (relativePosition sub ref Left o) = Returned r /\
    (r = true <->
     num_le (right A) (x B - orDefault (gap o) 0 + orDefault (tolerance o) 0) = true /\
     num_ge (overlapRatio1D (y A) (bottom A) (y B) (bottom B)
             + orDefault (tolerance o) 0)
            (orDefault (overlapRatio o) 0) = true).
Proof.
  intros HA HB (Hg & [Ho0 Ho1] & _) Hl.
  unfold relativePosition.
  rewrite (b64_gap_check_ok o Hg), (b64_overlap_check_ok o Ho0 Ho1).
  rewrite !b64_bind_ret_l.
  unfold all2, awaitBoundingBox. rewrite HA, HB.
  cbv beta iota delta [bind request ret outcome probes app].
  unfold mapLogical. rewrite Hl. cbv zeta.
  eexists. split; [reflexivity|].
  rewrite andb_true_iff. unfold le. reflexivity.
Qed.

Lemma relativePosition_left_iff_witness :
  exists r : bool,
    outcome (relativePosition (rendered (mkBox 0 0 0.1 10)) (rendered (mkBox 0.1 0 5 10))
               Left (mkRelativeOptions None (Some 0.5) (Some 0.5) None None))
    = Returned r /\
    (r = true <->
     num_le (right (mkBox 0 0 0.1 10)) (0.1 - 0.5 + 0.5) = true /\
     num_ge (overlapRatio1D 0 (bottom (mkBox 0 0 0.1 10)) 0 (bottom (mkBox 0.1 0 5 10))
             + 0.5) 0 = true).
Proof.
  apply (relativePosition_left_iff
           (rendered (mkBox 0 0 0.1 10)) (rendered (mkBox 0.1 0 5 10))
           (mkRelativeOptions None (Some 0.5) (Some 0.5) None None)
           (mkBox 0 0 0.1 10) (mkBox 0.1 0 5 10)).
  - reflexivity.
  - reflexivity.
  - unfold validRelative; simpl. repeat split; reflexivity.
  - reflexivity.
Defined.

(** Rounding decides at touching edges: 0.1 - 0.5 + 0.5 is
    0.09999999999999998 in binary64, so a box that ends at 0.1 is not left of
    one that starts at 0.1 under gap 0.5 and tolerance 0.5; and 8 + 0.1
    rounds to 8.1. *)
Example relativePosition_left_rounding :
  outcome (relativePosition (rendered (mkBox 0 0 0.1 10)) (rendered (mkBox 0.1 0 5 10))
             Left (mkRelativeOptions None (Some 0.5) (Some 0.5) None None))
  = Returned false /\
  outcome (relativePosition (rendered (mkBox 8 0 0.1 10)) (rendered (mkBox 8.1 0 5 10))
             Left (mkRelativeOptions None None None None None))
  = Returned true.
Proof. split; vm_compute; reflexivity. Qed.

(** ** Math.max and Math.min *)

Lemma Math_max_0_cases (v : float) :
  (is_nan v = true /\ Math_max 0 v = nan) \/
  (is_nan v = false /\ num_lt 0 v = true /\ Math_max 0 v = v) \/
  (is_nan v = false /\ num_lt 0 v = false /\ Math_max 0 v = 0).
Proof.
  unfold Math_max, num_lt.
  change (is_nan 0) with false. change (is_neg_zero 0) with false.
  rewrite andb_false_r. cbn [orb].
  destruct (is_nan v); [left; split; reflexivity|right].
  destruct (0 <? v); [left|right]; repeat split; reflexivity.
Qed.




(** ** clampVisible *)




(** ** The two area ratios *)

Lemma b64_nonneg_not_nan (r : float) : num_le 0 r = true -> is_nan r = false.
Proof.
  intro H0. destruct (is_nan r) eqn:Hr; [|reflexivity].
  unfold is_nan in Hr. apply negb_true_iff in Hr.
  unfold num_le in H0. rewrite leb_spec in H0. rewrite eqb_spec in Hr.
  revert H0 Hr. unfold SFleb, SFeqb.
  replace (Prim2SF 0) with (S754_zero false) by reflexivity.
  destruct (Prim2SF r) as [s|s| |s m e]; try destruct s; simpl; try congruence.
  all: rewrite ?Z.compare_refl, ?Pos.compare_cont_refl; simpl; congruence.
Qed.

(** The final [Math.min(1, Math.max(0, q))]: NaN when the quotient is NaN,
    and otherwise a number of [0,1]. *)
Lemma clamp01_cases (q : float) :
  (is_nan q = true /\ Math_min 1 (Math_max 0 q) = nan) \/
  (is_nan q = false /\
   num_le 0 (Math_min 1 (Math_max 0 q)) = true /\
   num_le (Math_min 1 (Math_max 0 q)) 1 = true).
Proof.
  assert (Hmin : forall m, is_nan m = false ->
                 Math_min 1 m = if m <? 1 then m else 1).
  { intros m Hm. unfold Math_min. change (is_nan 1) with false.
    change (is_pos_zero 1) with false. rewrite Hm, andb_false_r. reflexivity. }
  destruct (Math_max_0_cases q) as [[Hn E]|[(Hn & Hl & E)|(Hn & Hl & E)]];
    rewrite E.
  - left. split; [exact Hn|reflexivity].
  - right. split; [exact Hn|]. rewrite (Hmin q Hn).
    destruct (q <? 1) eqn:H1.
    + split; [apply b64_lt_le; exact Hl|apply b64_lt_le; exact H1].
    + split; reflexivity.
  - right. split; [exact Hn|]. split; reflexivity.
Qed.

(** What a ratio function may answer: a number of [0,1], or NaN. *)
Lemma clamp01_range (q : float) :
  (is_nan (Math_min 1 (Math_max 0 q)) = true \/
   (num_le 0 (Math_min 1 (Math_max 0 q)) = true /\
    num_le (Math_min 1 (Math_max 0 q)) 1 = true)) /\
  (is_nan q = false -> is_nan (Math_min 1 (Math_max 0 q)) = false).
Proof.
  destruct (clamp01_cases q) as [[Hn Er]|(Hn & H0 & H1)].
  - split; [left; rewrite Er; reflexivity|]. congruence.
  - split; [right; split; assumption|].
    intros _. apply b64_nonneg_not_nan. exact H0.
Qed.

Lemma zero_in_range :
  is_nan 0 = true \/ (num_le 0 0 = true /\ num_le 0 1 = true).
Proof. right. split; reflexivity. Qed.

(** X13. [visibleAreaRatio] never throws.  It answers 0 when the box or the
    viewport is absent or the area of the box is 0, and otherwise a number
    between 0 and 1, or NaN, which it answers only when the quotient of the
    two areas is NaN. *)
Theorem visibleAreaRatio_range (l : LocatorLike) :
  exists r : float,
    outcome (visibleAreaRatio l) = Returned r /\
    (is_nan r = true \/ (num_le 0 r = true /\ num_le r 1 = true)) /\
    (boundingBox l = None \/ viewportOf l = None \/
     (exists b, boundingBox l = Some b /\ num_eq (area b) 0 = true) -> r = 0) /\
    (forall b vp,
        boundingBox l = Some b -> viewportOf l = Some vp ->
        is_nan (area (clampVisible (viewportWidth vp) (viewportHeight vp) b) / area b)
        = false ->
        is_nan r = false).
Proof.
  unfold visibleAreaRatio, awaitBoundingBox, awaitViewportSize, viewportOf.
  unfold request, bind. cbn [outcome probes].
  destruct (boundingBox l) as [b|].
  2: { exists 0. destruct (page l) as [p|]; cbn [outcome probes ret];
         (split; [reflexivity|]); (split; [exact zero_in_range|]);
         (split; [reflexivity|]); intros b vp H; discriminate H. }
  destruct (page l) as [[[vp|]]|]; cbn [outcome probes ret].
  2, 3: exists 0; (split; [reflexivity|]); (split; [exact zero_in_range|]);
    (split; [reflexivity|]); intros b' vp' _ H; discriminate H.
  destruct (num_eq (area b) 0) eqn:E; cbn [outcome ret].
  - exists 0. split; [reflexivity|]. split; [exact zero_in_range|].
    split; reflexivity.
  - eexists. split; [reflexivity|].
    destruct (clamp01_range
                (area (clampVisible (viewportWidth vp) (viewportHeight vp) b) / area b))
      as [Hr Hq].
    split; [exact Hr|]. split.
    + intros [H|[H|[b' [H Hz]]]]; try discriminate H.
      injection H as <-. congruence.
    + intros b' vp' Hb Hv. injection Hb as <-. injection Hv as <-. exact Hq.
Qed.

(** X14. [intersectionAreaRatio] never throws.  It answers 0 when a box is
    absent or the area of the first box is 0, and otherwise a number between
    0 and 1, or NaN, which it answers only when the quotient of the two areas
    is NaN. *)
Theorem intersectionAreaRatio_range (first second : LocatorLike) :
  exists r : float,
    outcome (intersectionAreaRatio first second) = Returned r /\
    (is_nan r = true \/ (num_le 0 r = true /\ num_le r 1 = true)) /\
    (boundingBox first = None \/ boundingBox second = None \/
     (exists A, boundingBox first = Some A /\ num_eq (area A) 0 = true) -> r = 0) /\
    (forall A B,
        boundingBox first = Some A -> boundingBox second = Some B ->
        is_nan (area (intersect A B) / area A) = false ->
        is_nan r = false).
Proof.
  unfold intersectionAreaRatio, all2, awaitBoundingBox, request, bind.
  cbn [outcome probes ret].
  destruct (boundingBox first) as [A|].
  2: { exists 0. split; [reflexivity|]. split; [exact zero_in_range|].
       split; [reflexivity|]. intros A B H. discriminate H. }
  destruct (boundingBox second) as [B|].
  2: { exists 0. split; [reflexivity|]. split; [exact zero_in_range|].
       split; [reflexivity|]. intros A' B' _ H. discriminate H. }
  destruct (num_eq (area A) 0) eqn:E; cbn [outcome ret].
  - exists 0. split; [reflexivity|]. split; [exact zero_in_range|].
    split; reflexivity.
  - eexists. split; [reflexivity|].
    destruct (clamp01_range (area (intersect A B) / area A)) as [Hr Hq].
    split; [exact Hr|]. split.
    + intros [H|[H|[A' [H Hz]]]]; try discriminate H.
      injection H as <-. congruence.
    + intros A' B' HA HB. injection HA as <-. injection HB as <-. exact Hq.
Qed.

(** Rounding shows in the ratio: a box 8 wide at x = 0.2, wholly inside an
    800 x 600 viewport, has visible ratio 0.9999999999999998. *)
Example visibleAreaRatio_rounding :
  outcome (visibleAreaRatio (measured (mkBox 0.2 8 8 20) (mkViewportSize 800 600)))
  = Returned 0.9999999999999998.
Proof. vm_compute. reflexivity. Qed.

(** ** inOrder *)

Lemma b64_allOf_boundingBox (locators : list LocatorLike) :
  allOf awaitBoundingBox locators =
  mkRun (repeat BoxRequested (List.length locators))
        (Returned (map boundingBox locators)).
Proof.
  induction locators as [|l rest IH]; [reflexivity|].
  cbn [allOf]. rewrite IH.
  unfold awaitBoundingBox, request, bind, ret; cbn.
  rewrite app_nil_r. reflexivity.
Qed.

Lemma b64_allMeasured_present (bs : list BoundingBox) :
  allMeasured (map Some bs) = Some bs.
Proof.
  induction bs as [|b rest IH]; [reflexivity|].
  cbn. rewrite IH. reflexivity.
Qed.

Lemma b64_eachAdjacent_iff (rel : BoundingBox -> BoundingBox -> bool)
    (bs : list BoundingBox) :
  eachAdjacent rel bs = true <->
  forall prev next, adjacentPair bs prev next -> rel prev next = true.
Proof.
  induction bs as [|b rest IH].
  - split; [|reflexivity].
    intros _ prev next [i [H _]]. destruct i; discriminate.
  - destruct rest as [|c rest'].
    + split; [|reflexivity].
      intros _ prev next [i [_ H]]. destruct i; discriminate.
    + change (eachAdjacent rel (b :: c :: rest'))
        with (if negb (rel b c) then false else eachAdjacent rel (c :: rest')).
      split.
      * intros H prev next [i [H1 H2]].
        destruct (rel b c) eqn:E; [|discriminate]. cbn [negb] in H.
        destruct i as [|i].
        -- cbn in H1, H2. congruence.
        -- apply IH; [exact H|]. exists i. split; assumption.
      * intro H.
        assert (E : rel b c = true).
        { apply H. exists 0%nat. split; reflexivity. }
        rewrite E. cbn [negb].
        apply IH. intros prev next [i [H1 H2]]. apply H.
        exists (S i). split; assumption.
Qed.

(** X25. For a sequence of measured boxes, left-to-right holds exactly when
    every box has right(prev) <= next.x + tolerance, and top-to-bottom
    exactly when bottom(prev) <= next.y + tolerance, each sum being the
    rounded binary64 one. *)
Theorem inOrder_forward_iff (locators : list LocatorLike)
    (bs : list BoundingBox) (tol : float) :
  map boundingBox locators = map Some bs ->
  (outcome (inOrder locators LeftToRight tol) = Returned true <->
   forall prev next,
     adjacentPair bs prev next -> num_le (right prev) (x next + tol) = true) /\
  (outcome (inOrder locators TopToBottom tol) = Returned true <->
   forall prev next,
     adjacentPair bs prev next -> num_le (bottom prev) (y next + tol) = true).
Proof.
  intro Hm. unfold inOrder. rewrite b64_allOf_boundingBox.
  unfold bind; cbn [outcome probes]. rewrite Hm, b64_allMeasured_present.
  cbn [outcome ret]. split.
  - rewrite <- (b64_eachAdjacent_iff
                  (fun prev next => le (right prev) (x next) tol) bs).
    split; [intro H; injection H as H; exact H|intro H; rewrite H; reflexivity].
  - rewrite <- (b64_eachAdjacent_iff
                  (fun prev next => le (bottom prev) (y next) tol) bs).
    split; [intro H; injection H as H; exact H|intro H; rewrite H; reflexivity].
Qed.

Lemma inOrder_forward_iff_witness :
  (outcome (inOrder [rendered (mkBox 8 0 0.1 10); rendered (mkBox 8.1 0 5 10)]
                    LeftToRight 0) = Returned true <->
   forall prev next,
     adjacentPair [mkBox 8 0 0.1 10; mkBox 8.1 0 5 10] prev next ->
     num_le (right prev) (x next + 0) = true) /\
  (outcome (inOrder [rendered (mkBox 8 0 0.1 10); rendered (mkBox 8.1 0 5 10)]
                    TopToBottom 0) = Returned true <->
   forall prev next,
     adjacentPair [mkBox 8 0 0.1 10; mkBox 8.1 0 5 10] prev next ->
     num_le (bottom prev) (y next + 0) = true).
Proof.
  apply (inOrder_forward_iff
           [rendered (mkBox 8 0 0.1 10); rendered (mkBox 8.1 0 5 10)]
           [mkBox 8 0 0.1 10; mkBox 8.1 0 5 10] 0).
  reflexivity.
Defined.

End Binary64Properties.
